(** * libdeno exception reporting: a shallow embedding of
      core/libdeno/exceptions.cc and the properties of its error reports.

    The file follows the source top to bottom: [ReplaceAll], [EscapeString],
    [EncodeMessageAsJSON], [EncodeExceptionAsJSON], [HandleException] and
    [HandleExceptionMessage].  Engine objects (messages, stack traces, the
    isolate) appear as the values the C++ code reads from them. *)

From Stdlib Require Import List ZArith Lia Bool.
From Stdlib Require Import Ascii String DecimalString DecimalPos.
Import ListNotations.

Local Open Scope string_scope.

(** ** Results of C++ code that may crash or loop *)

(** A call either returns, or ends the process through a failed API check
    (FromJust on Nothing, ToLocalChecked on an empty handle, CHECK_NOT_NULL,
    an uncaught std::out_of_range), or exhausts the iteration budget the
    model gives to a loop or to a recursion. *)
Inductive outcome (A : Type) : Type :=
| Ret (a : A)
| Fatal (why : string)
| OutOfFuel.

Arguments Ret {A} a.
Arguments Fatal {A} why.
Arguments OutOfFuel {A}.

Definition bind {A B : Type} (c : outcome A) (k : A -> outcome B) : outcome B :=
  match c with
  | Ret a => k a
  | Fatal why => Fatal why
  | OutOfFuel => OutOfFuel
  end.

Notation "x <- c ;; k" := (bind c (fun x => k))
  (at level 61, c at next level, right associativity).

(** ** std::string operations used by the source *)

(** The one-character string holding the double-quote character (code 34). *)
Definition dq : string := String "034" EmptyString.

(** The one-character string holding the backslash (code 92). *)
Definition bs : string := String "092" EmptyString.

Fixpoint take (n : nat) (s : string) : string :=
  match n, s with
  | S n', String c s' => String c (take n' s')
  | _, _ => EmptyString
  end.

Fixpoint drop (n : nat) (s : string) : string :=
  match n, s with
  | S n', String _ s' => drop n' s'
  | _, _ => s
  end.

(** [str.find(from, pos)]: the first position at or after [pos] where [from]
    occurs in [str]; [None] is std::string::npos. *)
Definition find (str from : string) (pos : nat) : option nat :=
  index pos from str.

(** [str.replace(pos, len, to)]: std::out_of_range when [pos] is beyond the
    end, otherwise the characters [pos .. pos+len) (clipped to the end of the
    string) are replaced by [to]. *)
Definition replace (str : string) (pos len : nat) (to : string)
  : outcome string :=
  if (length str <? pos)%nat then Fatal "std::out_of_range"
  else Ret (take pos str ++ to ++ drop (pos + len) str).

(** The while loop of [ReplaceAll]; one unit of [fuel] per evaluation of
    the loop condition. *)
Fixpoint ReplaceAll_loop (fuel : nat) (str from to : string) (pos : nat)
  : outcome string :=
  match fuel with
  | O => OutOfFuel
  | S fuel' =>
      match find str from pos with
      | None => Ret str
      | Some p =>
          str' <- replace str p (length from) to ;;
          ReplaceAll_loop fuel' str' from to (p + length to)
      end
  end.

Definition ReplaceAll (fuel : nat) (str from to : string) : outcome string :=
  ReplaceAll_loop fuel str from to 0.

(** [EscapeString]: ReplaceAll(str, quote, backslash quote).  The loop gets
    one more iteration than the string has characters, which
    [ReplaceAll_loop_spec] below shows is never used up. *)
Definition EscapeString (str : string) : outcome string :=
  ReplaceAll (S (length str)) str dq (bs ++ dq).

(** ** Reference definitions for the replacement *)

(** Left-to-right replacement of the non-overlapping occurrences of [from]:
    [skip] counts the characters of an occurrence still to be dropped. *)
Fixpoint replace_occurrences (from to : string) (skip : nat) (s : string)
  : string :=
  match s with
  | EmptyString => EmptyString
  | String c s' =>
      match skip with
      | S k => replace_occurrences from to k s'
      | O =>
          if prefix from s
          then to ++ replace_occurrences from to (length from - 1) s'
          else String c (replace_occurrences from to 0 s')
      end
  end.

(** Every double-quote becomes backslash, double-quote; every other
    character is kept. *)
Fixpoint escape_quotes (s : string) : string :=
  match s with
  | EmptyString => EmptyString
  | String c s' =>
      if Ascii.eqb c "034"
      then String "092" (String "034" (escape_quotes s'))
      else String c (escape_quotes s')
  end.

(** ** Values the code reads from the engine *)

(** [v8::Maybe<T>] and [v8::MaybeLocal<T>] are [option]; a possibly empty
    [v8::Local<T>] handle is [option] too. *)
Definition IsJust {A : Type} (m : option A) : bool :=
  match m with Some _ => true | None => false end.

Definition IsEmpty {A : Type} (m : option A) : bool :=
  match m with Some _ => false | None => true end.

(** v8.h on FromJust: if this Maybe is nothing (empty), V8 will crash the
    process.  The failed API check is the [Fatal] outcome. *)
Definition FromJust {A : Type} (m : option A) : outcome A :=
  match m with
  | Some a => Ret a
  | None => Fatal "v8::FromJust: Maybe value is Nothing."
  end.

(** v8.h on ToLocalChecked: if this MaybeLocal is empty, V8 will crash the
    process. *)
Definition ToLocalChecked {A : Type} (m : option A) : outcome A :=
  match m with
  | Some a => Ret a
  | None => Fatal "v8::ToLocalChecked: Empty MaybeLocal."
  end.

(** Strings are the UTF-8 bytes that v8::String::Utf8Value yields for the
    engine string; integers are the C++ int the accessor returns. *)
Module StackFrame.
Record t : Type := mk {
  GetFunctionName : string;
  GetLineNumber : Z;
  GetColumn : Z;
  IsEval : bool;
  IsConstructor : bool;
  IsWasm : bool;
  (** empty handle when the engine has no script name or source URL *)
  GetScriptNameOrSourceURL : option string
}.
End StackFrame.

Module Message.
Record t : Type := mk {
  Get : string;
  (** GetScriptResourceName(), as Utf8Value renders it *)
  GetScriptResourceName : string;
  (** v8::JSON::Stringify(context, GetScriptResourceName()) *)
  StringifyScriptResourceName : option string;
  GetStartPosition : Z;
  GetEndPosition : Z;
  ErrorLevel : Z;
  IsSharedCrossOrigin : bool;
  IsOpaque : bool;
  GetSourceLine : option string;
  GetLineNumber : option Z;
  GetStartColumn : option Z;
  GetEndColumn : option Z;
  (** empty handle when no stack trace was captured; otherwise the
      frames, GetFrame(0) first *)
  GetStackTrace : option (list StackFrame.t)
}.
End Message.

(** ** Stream output *)

(** [operator<<] on an int: decimal digits, a minus sign when negative. *)
Definition show_int (z : Z) : string := NilZero.string_of_int (Z.to_int z).

Definition show_bool (b : bool) : string := if b then "true" else "false".

(** A key as the source spells it: the name between two double-quotes. *)
Definition quoted (name : string) : string := dq ++ name ++ dq.

Definition sp4 : string := "    ".
Definition sp6 : string := "      ".
Definition sp8 : string := "        ".

(** uint32_t arithmetic wraps modulo 2^32. *)
Definition uint32 (z : Z) : Z := (z mod 2 ^ 32)%Z.

(** ** EncodeMessageAsJSON *)

(** The std::stringstream [source_line] (source lines 38-43). *)
Definition source_line (message : Message.t) : outcome string :=
  let maybe_source_line := Message.GetSourceLine message in
  if negb (IsEmpty maybe_source_line) then
    value <- ToLocalChecked maybe_source_line ;;
    escaped <- EscapeString value ;;
    Ret (quoted "sourceLine" ++ ": " ++ dq ++ escaped ++ dq ++ ",")
  else Ret EmptyString.

(** The std::stringstream [line_number] (source lines 45-49). *)
Definition line_number (message : Message.t) : outcome string :=
  let maybe_line_number := Message.GetLineNumber message in
  if IsJust maybe_line_number then
    n <- FromJust maybe_line_number ;;
    Ret (quoted "lineNumber" ++ ": " ++ show_int n ++ ",")
  else Ret EmptyString.

(** The std::stringstream [start_column] (source lines 51-55). *)
Definition start_column (message : Message.t) : outcome string :=
  let maybe_start_column := Message.GetStartColumn message in
  if IsJust maybe_start_column then
    n <- FromJust maybe_start_column ;;
    Ret (quoted "startColumn" ++ ": " ++ show_int n ++ ",")
  else Ret EmptyString.

(** The std::stringstream [end_column] (source lines 57-61). *)
Definition end_column (message : Message.t) : outcome string :=
  let maybe_end_column := Message.GetEndColumn message in
  if IsJust maybe_end_column then
    n <- FromJust maybe_end_column ;;
    Ret (quoted "endColumn" ++ ": " ++ show_int n ++ ",")
  else Ret EmptyString.

(** The object written for one frame of a real stack trace (lines 71-93). *)
Definition frame_json (frame : StackFrame.t) : string :=
  let function_name := StackFrame.GetFunctionName frame in
  let line := StackFrame.GetLineNumber frame in
  let column := StackFrame.GetColumn frame in
  let is_eval := StackFrame.IsEval frame in
  let is_constructor := StackFrame.IsConstructor frame in
  let is_wasm := StackFrame.IsWasm frame in
  let maybe_script_name := StackFrame.GetScriptNameOrSourceURL frame in
  let script_name :=
    match maybe_script_name with
    | None => "<unknown>"
    | Some name => name
    end in
  "{" ++ sp8 ++ quoted "line" ++ ": " ++ show_int line ++ ","
  ++ sp8 ++ quoted "column" ++ ": " ++ show_int column ++ ","
  ++ sp8 ++ quoted "functionName" ++ ": " ++ dq ++ function_name ++ dq ++ ","
  ++ sp8 ++ quoted "scriptName" ++ ": " ++ dq ++ script_name ++ dq ++ ","
  ++ sp8 ++ quoted "isEval" ++ ": " ++ show_bool is_eval ++ ","
  ++ sp8 ++ quoted "isConstructor" ++ ": " ++ show_bool is_constructor ++ ","
  ++ sp8 ++ quoted "isWasm" ++ ": " ++ show_bool is_wasm
  ++ sp6 ++ "}".

(** The for loop over the frames (lines 68-98): [frames] are the frames from
    index [i] on, so its head is GetFrame(i); the text returned is what the
    iterations from [i] on append to the stream. *)
Fixpoint frames_loop (frames : list StackFrame.t) (i count : Z) : string :=
  match frames with
  | [] => EmptyString
  | frame :: rest =>
      if (i <? count)%Z then
        frame_json frame
        ++ (if (i <? uint32 (count - 1))%Z then "," else EmptyString)
        ++ frames_loop rest (uint32 (i + 1)) count
      else EmptyString
  end.

(** The std::stringstream [stack_trace_json] (source lines 63-121). *)
Definition stack_trace_json (message : Message.t) : outcome string :=
  let maybe_line_number := Message.GetLineNumber message in
  let maybe_start_column := Message.GetStartColumn message in
  let stack_trace := Message.GetStackTrace message in
  match stack_trace with
  | Some frames =>
      let count := uint32 (Z.of_nat (List.length frames)) in
      Ret ("[" ++ frames_loop frames 0 count ++ "]")
  | None =>
      line <-
        (if negb (IsJust maybe_line_number) then
           n <- FromJust maybe_line_number ;;
           Ret (quoted "line" ++ ": " ++ show_int n ++ ",")
         else Ret EmptyString) ;;
      column <-
        (if negb (IsJust maybe_start_column) then
           n <- FromJust maybe_start_column ;;
           Ret (quoted "column" ++ ": " ++ show_int n ++ ",")
         else Ret EmptyString) ;;
      script_name <-
        ToLocalChecked (Message.StringifyScriptResourceName message) ;;
      Ret ("[{" ++ line ++ column
           ++ quoted "scriptName" ++ ": " ++ dq ++ script_name ++ dq
           ++ sp4 ++ "}]")
  end.

Definition EncodeMessageAsJSON (message : Message.t) : outcome string :=
  let exception_str := Message.Get message in
  let script_resource_name := Message.GetScriptResourceName message in
  let start_position := Message.GetStartPosition message in
  let end_position := Message.GetEndPosition message in
  let error_level := Message.ErrorLevel message in
  let is_shared_cross_origin := Message.IsSharedCrossOrigin message in
  let is_opaque := Message.IsOpaque message in
  source_line_str <- source_line message ;;
  line_number_str <- line_number message ;;
  start_column_str <- start_column message ;;
  end_column_str <- end_column message ;;
  stack_trace_json_str <- stack_trace_json message ;;
  Ret ("{" ++ sp4 ++ quoted "message" ++ ": " ++ dq ++ exception_str ++ dq ++ ","
       ++ sp4 ++ quoted "scriptResourceName" ++ ": "
       ++ dq ++ script_resource_name ++ dq ++ ","
       ++ sp4 ++ quoted "startPosition" ++ ": " ++ show_int start_position ++ ","
       ++ sp4 ++ quoted "endPosition" ++ ": " ++ show_int end_position ++ ","
       ++ sp4 ++ quoted "errorLevel" ++ ": " ++ show_int error_level ++ ","
       ++ sp4 ++ quoted "isSharedCrossOrigin" ++ ": "
       ++ show_bool is_shared_cross_origin ++ ","
       ++ sp4 ++ quoted "isOpaque" ++ ": " ++ show_bool is_opaque ++ ","
       ++ source_line_str
       ++ line_number_str
       ++ start_column_str
       ++ end_column_str
       ++ quoted "frames" ++ ": " ++ stack_trace_json_str
       ++ "}").

(** ** Exception values, the engine and the isolate *)

(** The values a script can throw, as far as the dispatcher tells them
    apart. *)
Inductive Value : Type :=
| Undefined
| Null
| Boolean (b : bool)
| Number (z : Z)
| Str (s : string)
| ErrorObject (text : string).

Definition IsNullOrUndefined (v : Value) : bool :=
  match v with
  | Undefined | Null => true
  | _ => false
  end.

(** v8::Exception::Error(v8_str(text)) *)
Definition Exception_Error (text : string) : Value := ErrorObject text.

(** The engine facility [v8::Exception::CreateMessage(isolate, exception)],
    which is not part of this file's source. *)
Class Engine : Type := {
  CreateMessage : Value -> Message.t
}.

Record DenoIsolate : Type := {
  last_exception_ : string
}.

(** The isolate: its termination state, and the DenoIsolate that
    [DenoIsolate::FromIsolate] finds in it ([None] is the null pointer).
    v8.h tells two things apart.  IsExecutionTerminating is true while
    JavaScript execution is being terminated because of a call to
    TerminateExecution, the termination exception still being active.
    TerminateExecution itself only asks for the termination: the engine
    starts terminating when running JavaScript next checks for
    interrupts, which does not happen inside the functions of this file.
    CancelTerminateExecution withdraws both. *)
Record Isolate : Type := {
  execution_terminating : bool;
  termination_requested : bool;
  deno_isolate : option DenoIsolate
}.

Definition IsExecutionTerminating (isolate : Isolate) : bool :=
  execution_terminating isolate.

Definition CancelTerminateExecution (isolate : Isolate) : Isolate :=
  {| execution_terminating := false;
     termination_requested := false;
     deno_isolate := deno_isolate isolate |}.

Definition TerminateExecution (isolate : Isolate) : Isolate :=
  {| execution_terminating := execution_terminating isolate;
     termination_requested := true;
     deno_isolate := deno_isolate isolate |}.

Definition FromIsolate (isolate : Isolate) : option DenoIsolate :=
  deno_isolate isolate.

Definition CHECK_NOT_NULL {A : Type} (p : option A) : outcome A :=
  match p with
  | Some a => Ret a
  | None => Fatal "Check failed: d != nullptr."
  end.

(** [d->last_exception_ = json_str] *)
Definition set_last_exception (isolate : Isolate) (json_str : string)
  : Isolate :=
  {| execution_terminating := execution_terminating isolate;
     termination_requested := termination_requested isolate;
     deno_isolate := Some {| last_exception_ := json_str |} |}.

(** The report slot of the isolate, when it has a DenoIsolate. *)
Definition last_exception (isolate : Isolate) : option string :=
  option_map last_exception_ (deno_isolate isolate).

Section Dispatcher.

Context {engine : Engine}.

Definition EncodeExceptionAsJSON (exception : Value) : outcome string :=
  let message := CreateMessage exception in
  EncodeMessageAsJSON message.

(** [depth] bounds the nesting of HandleException activations. *)
Fixpoint HandleException (depth : nat) (isolate : Isolate)
  (exception : Value) : outcome Isolate :=
  match depth with
  | O => OutOfFuel
  | S depth' =>
      if IsExecutionTerminating isolate then
        let isolate := CancelTerminateExecution isolate in
        let exception :=
          if IsNullOrUndefined exception
          then Exception_Error "execution terminated"
          else exception in
        isolate <- HandleException depth' isolate exception ;;
        Ret (TerminateExecution isolate)
      else
        let d := FromIsolate isolate in
        json_str <- EncodeExceptionAsJSON exception ;;
        _ <- CHECK_NOT_NULL d ;;
        Ret (set_last_exception isolate json_str)
  end.

(** [depth] is the bound handed to the HandleException it calls. *)
Definition HandleExceptionMessage (depth : nat) (isolate : Isolate)
  (message : Message.t) : outcome Isolate :=
  if IsExecutionTerminating isolate then
    HandleException depth isolate Undefined
  else
    let d := FromIsolate isolate in
    json_str <- EncodeMessageAsJSON message ;;
    _ <- CHECK_NOT_NULL d ;;
    Ret (set_last_exception isolate json_str).

End Dispatcher.

(** The value whose report a call of HandleException publishes: under
    termination a null or undefined value gives way to the synthesized
    error. *)
Definition handled (isolate : Isolate) (exception : Value) : Value :=
  if IsExecutionTerminating isolate then
    if IsNullOrUndefined exception
    then Exception_Error "execution terminated"
    else exception
  else exception.

(** The isolate a call leaves behind when it stores [json_str]: the
    engine is not terminating any more, termination is requested when it
    was under way or already requested, the slot holds the report. *)
Definition published (isolate : Isolate) (json_str : string) : Isolate :=
  {| execution_terminating := false;
     termination_requested :=
       execution_terminating isolate || termination_requested isolate;
     deno_isolate := Some {| last_exception_ := json_str |} |}.

(** ** JSON texts (RFC 8259), the yardstick for the reports *)

Unset Elimination Schemes.
Inductive json : Type :=
| JNull
| JBool (b : bool)
| JNumber (lexeme : string)
| JString (raw : string)
| JArray (items : list json)
| JObject (members : list (string * json)).
Set Elimination Schemes.

Definition code_in (lo hi : nat) (c : ascii) : bool :=
  let n := nat_of_ascii c in (lo <=? n)%nat && (n <=? hi)%nat.

Definition is_ws (c : ascii) : bool :=
  code_in 32 32 c || code_in 9 10 c || code_in 13 13 c.

Definition is_digit (c : ascii) : bool := code_in 48 57 c.

Definition is_hex (c : ascii) : bool :=
  is_digit c || code_in 65 70 c || code_in 97 102 c.

Definition is_control (c : ascii) : bool := code_in 0 31 c.

(** The characters allowed after a backslash, the u of a \u escape apart:
    double-quote, backslash, slash, b, f, n, r, t. *)
Definition is_simple_escape (c : ascii) : bool :=
  code_in 34 34 c || code_in 92 92 c || code_in 47 47 c || code_in 98 98 c
  || code_in 102 102 c || code_in 110 110 c || code_in 114 114 c
  || code_in 116 116 c.

Fixpoint skip_ws (s : string) : string :=
  match s with
  | String c r => if is_ws c then skip_ws r else s
  | EmptyString => s
  end.

Inductive string_mode : Type :=
| InText
| AfterBackslash
| InHex (digits_left : nat).

Definition keep (c : ascii) (r : option (string * string))
  : option (string * string) :=
  match r with
  | Some (body, rest) => Some (String c body, rest)
  | None => None
  end.

(** The characters of a string literal after its opening double-quote:
    the raw body up to the closing double-quote, and what follows it. *)
Fixpoint string_body (mode : string_mode) (s : string)
  : option (string * string) :=
  match s with
  | EmptyString => None
  | String c r =>
      match mode with
      | InText =>
          if code_in 34 34 c then Some (EmptyString, r)
          else if code_in 92 92 c then keep c (string_body AfterBackslash r)
          else if is_control c then None
          else keep c (string_body InText r)
      | AfterBackslash =>
          if is_simple_escape c then keep c (string_body InText r)
          else if code_in 117 117 c then keep c (string_body (InHex 3) r)
          else None
      | InHex digits_left =>
          if is_hex c then
            keep c (string_body
                      (match digits_left with
                       | O => InText
                       | S k => InHex k
                       end) r)
          else None
      end
  end.

Fixpoint span_digits (s : string) : string * string :=
  match s with
  | String c r =>
      if is_digit c
      then let (ds, rest) := span_digits r in (String c ds, rest)
      else (EmptyString, s)
  | EmptyString => (EmptyString, EmptyString)
  end.

Definition some_digits (s : string) : option (string * string) :=
  match span_digits s with
  | (EmptyString, _) => None
  | (ds, rest) => Some (ds, rest)
  end.

(** int = zero / ( digit1-9 *DIGIT ) *)
Definition lex_int (s : string) : option (string * string) :=
  match s with
  | String c r =>
      if code_in 48 48 c then Some (String c EmptyString, r)
      else some_digits s
  | EmptyString => None
  end.

(** [ frac ] = [ decimal-point 1*DIGIT ] *)
Definition lex_frac (s : string) : option (string * string) :=
  match s with
  | String c r =>
      if code_in 46 46 c then keep c (some_digits r)
      else Some (EmptyString, s)
  | EmptyString => Some (EmptyString, s)
  end.

(** [ exp ] = [ e [ minus / plus ] 1*DIGIT ] *)
Definition lex_exp (s : string) : option (string * string) :=
  match s with
  | String c r =>
      if code_in 101 101 c || code_in 69 69 c then
        match r with
        | String sign r' =>
            if code_in 43 43 sign || code_in 45 45 sign
            then keep c (keep sign (some_digits r'))
            else keep c (some_digits r)
        | EmptyString => None
        end
      else Some (EmptyString, s)
  | EmptyString => Some (EmptyString, s)
  end.

Definition lex_unsigned (s : string) : option (string * string) :=
  match lex_int s with
  | Some (i, r1) =>
      match lex_frac r1 with
      | Some (f, r2) =>
          match lex_exp r2 with
          | Some (e, r3) => Some (i ++ f ++ e, r3)
          | None => None
          end
      | None => None
      end
  | None => None
  end.

(** number = [ minus ] int [ frac ] [ exp ] *)
Definition lex_number (s : string) : option (string * string) :=
  match s with
  | String c r =>
      if code_in 45 45 c then keep c (lex_unsigned r) else lex_unsigned s
  | EmptyString => None
  end.

Definition tag {A B : Type} (f : A -> B) (r : option (A * string))
  : option (B * string) :=
  match r with
  | Some (a, rest) => Some (f a, rest)
  | None => None
  end.

(** Recursive descent; [fuel] bounds the number of nested and chained
    calls.  [json_members] reads the members of an object after its opening
    brace up to and including the closing brace, [json_elements] the
    elements of an array likewise. *)
Fixpoint json_value (fuel : nat) (s : string) : option (json * string) :=
  match fuel with
  | O => None
  | S fuel' =>
      match skip_ws s with
      | EmptyString => None
      | String c r =>
          if code_in 123 123 c then
            match skip_ws r with
            | EmptyString => None
            | String c' r' =>
                if code_in 125 125 c' then Some (JObject [], r')
                else tag JObject (json_members fuel' r)
            end
          else if code_in 91 91 c then
            match skip_ws r with
            | EmptyString => None
            | String c' r' =>
                if code_in 93 93 c' then Some (JArray [], r')
                else tag JArray (json_elements fuel' r)
            end
          else if code_in 34 34 c then tag JString (string_body InText r)
          else if prefix "true" (String c r)
          then Some (JBool true, drop 4 (String c r))
          else if prefix "false" (String c r)
          then Some (JBool false, drop 5 (String c r))
          else if prefix "null" (String c r)
          then Some (JNull, drop 4 (String c r))
          else tag JNumber (lex_number (String c r))
      end
  end

with json_members (fuel : nat) (s : string)
  : option (list (string * json) * string) :=
  match fuel with
  | O => None
  | S fuel' =>
      match skip_ws s with
      | EmptyString => None
      | String c r =>
          if code_in 34 34 c then
            match string_body InText r with
            | None => None
            | Some (key, r1) =>
                match skip_ws r1 with
                | EmptyString => None
                | String colon r2 =>
                    if code_in 58 58 colon then
                      match json_value fuel' r2 with
                      | None => None
                      | Some (v, r3) =>
                          match skip_ws r3 with
                          | EmptyString => None
                          | String sep r4 =>
                              if code_in 125 125 sep
                              then Some ([(key, v)], r4)
                              else if code_in 44 44 sep then
                                tag (cons (key, v)) (json_members fuel' r4)
                              else None
                          end
                      end
                    else None
                end
            end
          else None
      end
  end

with json_elements (fuel : nat) (s : string) : option (list json * string) :=
  match fuel with
  | O => None
  | S fuel' =>
      match json_value fuel' s with
      | None => None
      | Some (v, r1) =>
          match skip_ws r1 with
          | EmptyString => None
          | String sep r2 =>
              if code_in 93 93 sep then Some ([v], r2)
              else if code_in 44 44 sep then
                tag (cons v) (json_elements fuel' r2)
              else None
          end
      end
  end.

(** A JSON text: one value, white space around it, nothing else. *)
Definition parse (fuel : nat) (s : string) : option json :=
  match json_value fuel s with
  | Some (j, rest) =>
      match skip_ws rest with
      | EmptyString => Some j
      | String _ _ => None
      end
  | None => None
  end.

Definition valid_json (s : string) : Prop :=
  exists fuel j, parse fuel s = Some j.

(** *** The error-report schema *)

Fixpoint lookup (key : string) (members : list (string * json))
  : option json :=
  match members with
  | [] => None
  | (k, v) :: rest => if String.eqb k key then Some v else lookup key rest
  end.

Definition is_string (j : json) : bool :=
  match j with JString _ => true | _ => false end.
Definition is_number (j : json) : bool :=
  match j with JNumber _ => true | _ => false end.
Definition is_bool (j : json) : bool :=
  match j with JBool _ => true | _ => false end.
Definition is_array (j : json) : bool :=
  match j with JArray _ => true | _ => false end.

Definition required (key : string) (ty : json -> bool)
  (members : list (string * json)) : bool :=
  match lookup key members with Some v => ty v | None => false end.

Definition optional (key : string) (ty : json -> bool)
  (members : list (string * json)) : bool :=
  match lookup key members with Some v => ty v | None => true end.

Definition conforms (j : json) : bool :=
  match j with
  | JObject ms =>
      required "message" is_string ms
      && required "scriptResourceName" is_string ms
      && required "startPosition" is_number ms
      && required "endPosition" is_number ms
      && required "errorLevel" is_number ms
      && required "isSharedCrossOrigin" is_bool ms
      && required "isOpaque" is_bool ms
      && required "frames" is_array ms
      && optional "sourceLine" is_string ms
      && optional "lineNumber" is_number ms
      && optional "startColumn" is_number ms
      && optional "endColumn" is_number ms
  | _ => false
  end.

(** The text is a JSON document that conforms to the report schema. *)
Definition valid_report (s : string) : Prop :=
  exists fuel j, parse fuel s = Some j /\ conforms j = true.

(** The report's message field holds [text]: the report starts with the
    message key followed by [text] between double-quotes. *)
Definition report_message (report text : string) : Prop :=
  exists rest,
    report = "{" ++ sp4 ++ quoted "message" ++ ": " ++ dq ++ text ++ dq ++ ","
             ++ rest.

(** ** The layout of a report *)

(** The required fields, which open every report. *)
Definition report_head (message : Message.t) : string :=
  "{" ++ sp4 ++ quoted "message" ++ ": "
  ++ dq ++ Message.Get message ++ dq ++ ","
  ++ sp4 ++ quoted "scriptResourceName" ++ ": "
  ++ dq ++ Message.GetScriptResourceName message ++ dq ++ ","
  ++ sp4 ++ quoted "startPosition" ++ ": "
  ++ show_int (Message.GetStartPosition message) ++ ","
  ++ sp4 ++ quoted "endPosition" ++ ": "
  ++ show_int (Message.GetEndPosition message) ++ ","
  ++ sp4 ++ quoted "errorLevel" ++ ": "
  ++ show_int (Message.ErrorLevel message) ++ ","
  ++ sp4 ++ quoted "isSharedCrossOrigin" ++ ": "
  ++ show_bool (Message.IsSharedCrossOrigin message) ++ ","
  ++ sp4 ++ quoted "isOpaque" ++ ": "
  ++ show_bool (Message.IsOpaque message) ++ ",".

(** An optional integer field: the key, the number and a comma when the
    value is resolved, nothing at all otherwise. *)
Definition optional_int_field (key : string) (v : option Z) : string :=
  match v with
  | Some n => quoted key ++ ": " ++ show_int n ++ ","
  | None => EmptyString
  end.

(** The optional source line, its double-quotes escaped. *)
Definition source_line_field (v : option string) : string :=
  match v with
  | Some line =>
      quoted "sourceLine" ++ ": " ++ dq ++ escape_quotes line ++ dq ++ ","
  | None => EmptyString
  end.

(** A whole report around the text [frames] of its frames array. *)
Definition report_layout (message : Message.t) (frames : string) : string :=
  report_head message
  ++ source_line_field (Message.GetSourceLine message)
  ++ optional_int_field "lineNumber" (Message.GetLineNumber message)
  ++ optional_int_field "startColumn" (Message.GetStartColumn message)
  ++ optional_int_field "endColumn" (Message.GetEndColumn message)
  ++ quoted "frames" ++ ": " ++ frames ++ "}".

(** The single frame written when the message has no stack trace. *)
Definition fallback_frames (script_name : string) : string :=
  "[{" ++ quoted "scriptName" ++ ": " ++ dq ++ script_name ++ dq
  ++ sp4 ++ "}]".

(** ** Sample messages and engines *)

Definition frame_main : StackFrame.t :=
  StackFrame.mk "main" 3 7 false false false (Some "a.js").

Definition frame_anonymous : StackFrame.t :=
  StackFrame.mk "run" 10 1 true false false None.

(** A message of the script a.js, whose name JSON::Stringify renders
    between double-quotes. *)
Definition sample_message (text : string) (source : option string)
  (line column : option Z) (trace : option (list StackFrame.t))
  : Message.t :=
  {| Message.Get := text;
     Message.GetScriptResourceName := "a.js";
     Message.StringifyScriptResourceName := Some (quoted "a.js");
     Message.GetStartPosition := 10;
     Message.GetEndPosition := 12;
     Message.ErrorLevel := 8;
     Message.IsSharedCrossOrigin := false;
     Message.IsOpaque := false;
     Message.GetSourceLine := source;
     Message.GetLineNumber := line;
     Message.GetStartColumn := column;
     Message.GetEndColumn := Some 12%Z;
     Message.GetStackTrace := trace |}.

(** Line number unresolved, start column resolved, a two-frame trace. *)
Definition message_with_trace : Message.t :=
  sample_message "Uncaught Error: boo" (Some "throw Error('boo');")
    None (Some 6%Z) (Some [frame_main; frame_anonymous]).

(** A stack trace object that holds no frame. *)
Definition message_zero_frames : Message.t :=
  sample_message "Uncaught SyntaxError: Unexpected end of input" None
    (Some 1%Z) (Some 0%Z) (Some []).

(** No stack trace; line number and start column both resolved. *)
Definition message_no_trace : Message.t :=
  sample_message "Uncaught Error: boo" None (Some 3%Z) (Some 6%Z) None.

(** No stack trace and no line number. *)
Definition message_unresolved_line : Message.t :=
  sample_message "Uncaught Error: boo" None None (Some 6%Z) None.

(** Double-quotes in the message text and in the source line. *)
Definition message_with_quote : Message.t :=
  sample_message ("Uncaught Error: say " ++ dq ++ "hi" ++ dq)
    (Some ("throw Error('say " ++ dq ++ "hi" ++ dq ++ "');"))
    (Some 1%Z) (Some 0%Z) (Some [frame_main]).

(** Line number unresolved; the message text closes its own string and
    goes on with a lineNumber member. *)
Definition message_injected_line : Message.t :=
  sample_message
    ("boo" ++ dq ++ "," ++ quoted "lineNumber" ++ ": " ++ dq ++ "7")
    None None (Some 6%Z) (Some [frame_main]).

(** The text an engine may give to the message of a thrown value. *)
Definition value_text (v : Value) : string :=
  match v with
  | Undefined => "undefined"
  | Null => "null"
  | Boolean b => show_bool b
  | Number z => show_int z
  | Str s => s
  | ErrorObject text => text
  end.

(** An engine whose messages carry the text of the thrown value. *)
Definition plain_engine : Engine :=
  {| CreateMessage := fun v =>
       sample_message (value_text v) None (Some 1%Z) (Some 0%Z)
         (Some [frame_main]) |}.

(** An engine that words its messages the way V8 words uncaught errors. *)
Definition uncaught_engine : Engine :=
  {| CreateMessage := fun v =>
       sample_message ("Uncaught Error: " ++ value_text v) None
         (Some 1%Z) (Some 0%Z) (Some [frame_main]) |}.

(** An isolate in the middle of a termination. *)
Definition terminating_isolate : Isolate :=
  {| execution_terminating := true;
     termination_requested := false;
     deno_isolate := Some {| last_exception_ := "previous report" |} |}.

Definition running_isolate : Isolate :=
  {| execution_terminating := false;
     termination_requested := false;
     deno_isolate := Some {| last_exception_ := "previous report" |} |}.

(** ** Reference rendering of report objects *)

(** A scalar member value: a string given by its raw body, an integer or
    a boolean. *)
Inductive scalar : Type :=
| SText (raw : string)
| SInt (z : Z)
| SBool (b : bool).

Definition scalar_text (v : scalar) : string :=
  match v with
  | SText raw => dq ++ raw ++ dq
  | SInt z => show_int z
  | SBool b => show_bool b
  end.

Definition scalar_json (v : scalar) : json :=
  match v with
  | SText raw => JString raw
  | SInt z => JNumber (show_int z)
  | SBool b => JBool b
  end.

(** A member followed by a comma: the white space before its key, the
    key, the value. *)
Definition field : Type := (string * string * scalar)%type.

Definition field_text (f : field) : string :=
  let '(pad, key, v) := f in
  pad ++ quoted key ++ ": " ++ scalar_text v ++ ",".

Fixpoint fields_text (fs : list field) : string :=
  match fs with
  | [] => EmptyString
  | f :: rest => field_text f ++ fields_text rest
  end.

Definition field_json (f : field) : string * json :=
  let '(_, key, v) := f in (key, scalar_json v).

Definition optional_field (key : string) (v : option scalar) : list field :=
  match v with
  | Some s => [(EmptyString, key, s)]
  | None => []
  end.

(** The members of a report before its frames. *)
Definition top_fields (m : Message.t) : list field :=
  [ (sp4, "message", SText (Message.Get m));
    (sp4, "scriptResourceName", SText (Message.GetScriptResourceName m));
    (sp4, "startPosition", SInt (Message.GetStartPosition m));
    (sp4, "endPosition", SInt (Message.GetEndPosition m));
    (sp4, "errorLevel", SInt (Message.ErrorLevel m));
    (sp4, "isSharedCrossOrigin", SBool (Message.IsSharedCrossOrigin m));
    (sp4, "isOpaque", SBool (Message.IsOpaque m)) ]
  ++ optional_field "sourceLine"
       (option_map (fun line => SText (escape_quotes line))
          (Message.GetSourceLine m))
  ++ optional_field "lineNumber" (option_map SInt (Message.GetLineNumber m))
  ++ optional_field "startColumn"
       (option_map SInt (Message.GetStartColumn m))
  ++ optional_field "endColumn" (option_map SInt (Message.GetEndColumn m)).

(** The members of a frame before its isWasm member. *)
Definition frame_fields (frame : StackFrame.t) : list field :=
  [ (sp8, "line", SInt (StackFrame.GetLineNumber frame));
    (sp8, "column", SInt (StackFrame.GetColumn frame));
    (sp8, "functionName", SText (StackFrame.GetFunctionName frame));
    (sp8, "scriptName",
       SText (match StackFrame.GetScriptNameOrSourceURL frame with
              | None => "<unknown>"
              | Some name => name
              end));
    (sp8, "isEval", SBool (StackFrame.IsEval frame));
    (sp8, "isConstructor", SBool (StackFrame.IsConstructor frame)) ].

(** The JSON value a frame stands for. *)
Definition frame_value (frame : StackFrame.t) : json :=
  JObject (map field_json (frame_fields frame)
           ++ [("isWasm", JBool (StackFrame.IsWasm frame))])%list.

(** The JSON value the report of a message with stack trace [frames]
    stands for. *)
Definition report_value (m : Message.t) (frames : list StackFrame.t) : json :=
  JObject (map field_json (top_fields m)
           ++ [("frames", JArray (map frame_value frames))])%list.

(** Texts that need no escaping: no double-quote, no backslash, no control
    character. *)
Definition plain_char (c : ascii) : bool :=
  negb (code_in 34 34 c || code_in 92 92 c || is_control c).

Fixpoint plain (s : string) : bool :=
  match s with
  | EmptyString => true
  | String c r => plain_char c && plain r
  end.

(** Texts that escaping double-quotes makes fit for a string literal: no
    backslash, no control character. *)
Definition escapable_char (c : ascii) : bool :=
  negb (code_in 92 92 c || is_control c).

Fixpoint escapable (s : string) : bool :=
  match s with
  | EmptyString => true
  | String c r => escapable_char c && escapable r
  end.

Definition plain_frame (frame : StackFrame.t) : bool :=
  plain (StackFrame.GetFunctionName frame)
  && match StackFrame.GetScriptNameOrSourceURL frame with
     | Some name => plain name
     | None => true
     end.

(** The texts of the top-level members after the message text: a plain
    script resource name, an escapable source line. *)
Definition top_texts_ok (m : Message.t) : bool :=
  plain (Message.GetScriptResourceName m)
  && match Message.GetSourceLine m with
     | Some line => escapable line
     | None => true
     end.

(** What a message needs, its text apart, for its report to be a JSON
    document: these texts, and a stack trace of frames with plain names
    (fewer than 2^31 of them, the range of GetFrameCount). *)
Definition benign_but_text (m : Message.t) : bool :=
  top_texts_ok m
  && match Message.GetStackTrace m with
     | Some frames =>
         forallb plain_frame frames
         && (Z.of_nat (List.length frames) <? 2 ^ 31)%Z
     | None => false
     end.

Definition benign (m : Message.t) : bool :=
  plain (Message.Get m) && benign_but_text m.

(** The number of double-quotes of a text. *)
Fixpoint count_quotes (s : string) : nat :=
  match s with
  | EmptyString => 0
  | String c r => (if Ascii.eqb c "034" then 1 else 0) + count_quotes r
  end.

Fixpoint all_ws (s : string) : bool :=
  match s with
  | EmptyString => true
  | String c r => is_ws c && all_ws r
  end.

(** A raw text is a string body when the string scanner reads it up to
    the double-quote that follows it. *)
Definition string_body_of (raw : string) : Prop :=
  forall rest,
    string_body InText (raw ++ String "034" rest) = Some (raw, rest).

Definition scalar_ok (v : scalar) : Prop :=
  match v with
  | SText raw => string_body_of raw
  | _ => True
  end.

Definition field_ok (f : field) : Prop :=
  let '(pad, key, v) := f in
  all_ws pad = true /\ string_body_of key /\ scalar_ok v.

(** The first character of a text after its leading white space, if any,
    is neither a comma nor a closing brace: after a complete member value
    such a text cannot continue an object. *)
Definition breaks_member (s : string) : bool :=
  match skip_ws s with
  | EmptyString => true
  | String c _ => negb (code_in 125 125 c || code_in 44 44 c)
  end.

(** * Properties *)

(** ** Strings *)

Lemma append_nil_r (s : string) : s ++ EmptyString = s.
Proof. induction s; simpl; congruence. Qed.

Lemma append_assoc (a b c : string) : (a ++ b) ++ c = a ++ b ++ c.
Proof. induction a; simpl; congruence. Qed.

Lemma length_append (a b : string) : length (a ++ b) = length a + length b.
Proof. induction a; simpl; congruence. Qed.

Lemma take_drop (n : nat) (s : string) : take n s ++ drop n s = s.
Proof.
  revert s; induction n as [|n IH]; intros [|c s]; simpl; try reflexivity.
  now rewrite IH.
Qed.

Lemma drop_all (n : nat) (s : string) :
  length s <= n -> drop n s = EmptyString.
Proof.
  revert s; induction n as [|n IH]; intros [|c s]; simpl; intros H;
    try reflexivity; try lia.
  apply IH; lia.
Qed.

Lemma length_take (n : nat) (s : string) :
  n <= length s -> length (take n s) = n.
Proof.
  revert s; induction n as [|n IH]; intros [|c s]; simpl; intros H;
    try reflexivity; try lia.
  rewrite IH; lia.
Qed.

Lemma take_append (a b : string) : take (length a) (a ++ b) = a.
Proof. induction a; simpl; [now destruct b | congruence]. Qed.

Lemma drop_append (a b : string) : drop (length a) (a ++ b) = b.
Proof. induction a; simpl; auto. Qed.

Lemma take_add (n k : nat) (s : string) :
  take (n + k) s = take n s ++ take k (drop n s).
Proof.
  revert s; induction n as [|n IH]; intros s; simpl.
  - reflexivity.
  - destruct s as [|c s]; simpl; [now destruct k | now rewrite IH].
Qed.

Lemma drop_add (n k : nat) (s : string) :
  drop (n + k) s = drop k (drop n s).
Proof.
  revert s; induction n as [|n IH]; intros s; simpl.
  - reflexivity.
  - destruct s as [|c s]; simpl; [now destruct k | apply IH].
Qed.

Lemma prefix_length (p s : string) :
  prefix p s = true -> length p <= length s.
Proof.
  revert s; induction p as [|a p IH]; intros s H; [simpl; lia|].
  destruct s as [|b s]; simpl in H; [discriminate|].
  destruct (ascii_dec a b); [|discriminate].
  apply IH in H. simpl. lia.
Qed.

(** ** ReplaceAll and EscapeString *)

Section ReplaceAllSpec.

Variables from to : string.
Hypothesis from_nonempty : from <> EmptyString.

Lemma replace_occurrences_skip (k : nat) (s : string) :
  replace_occurrences from to k s
  = replace_occurrences from to 0 (drop k s).
Proof.
  revert k; induction s as [|c s IH]; intros [|k]; try reflexivity.
  simpl drop. cbn [replace_occurrences]. apply IH.
Qed.

Lemma replace_occurrences_at (c : ascii) (s : string) :
  prefix from (String c s) = true ->
  replace_occurrences from to 0 (String c s)
  = to ++ replace_occurrences from to 0 (drop (length from) (String c s)).
Proof.
  intros H. cbn [replace_occurrences]. rewrite H.
  rewrite replace_occurrences_skip.
  destruct from as [|a p]; [congruence|].
  simpl. now rewrite Nat.sub_0_r.
Qed.

(** What [find] tells about the text from [n] on: no occurrence at all,
    or a first one at [p] with none starting in between. *)
Lemma find_spec (str : string) (n : nat) :
  match find str from n with
  | None =>
      replace_occurrences from to 0 (drop n str) = drop n str
  | Some p =>
      n <= p /\ p + length from <= length str /\
      replace_occurrences from to 0 (drop n str)
      = take (p - n) (drop n str) ++ to
        ++ replace_occurrences from to 0 (drop (p + length from) str)
  end.
Proof.
  unfold find. revert n.
  induction str as [|b s IH]; intros n.
  - destruct n; simpl; [|reflexivity].
    destruct from; [congruence | reflexivity].
  - destruct n as [|n]; cbn [index].
    + destruct (prefix from (String b s)) eqn:Hp.
      * split; [lia|]. split; [apply prefix_length in Hp; simpl in *; lia|].
        simpl drop at 1. rewrite (replace_occurrences_at _ _ Hp).
        reflexivity.
      * specialize (IH 0). destruct (index 0 from s) as [q|].
        -- destruct IH as (_ & Hlen & Heq). split; [lia|].
           split; [simpl; lia|].
           simpl drop in *. cbn [replace_occurrences]. rewrite Hp.
           rewrite Heq. rewrite !Nat.sub_0_r. reflexivity.
        -- simpl drop in *. cbn [replace_occurrences]. rewrite Hp.
           now rewrite IH.
    + specialize (IH n). destruct (index n from s) as [q|].
      * destruct IH as (Hle & Hlen & Heq). split; [lia|].
        split; [simpl; lia|]. simpl. exact Heq.
      * simpl. exact IH.
Qed.

(** The loop invariant: the text before [pos] is final, the text from
    [pos] on is still to be rewritten; the distance to the end of the
    string bounds the iterations left. *)
Lemma ReplaceAll_loop_spec (fuel : nat) (str : string) (pos : nat) :
  pos <= length str ->
  length str - pos < fuel ->
  ReplaceAll_loop fuel str from to pos
  = Ret (take pos str ++ replace_occurrences from to 0 (drop pos str)).
Proof.
  revert str pos; induction fuel as [|fuel IH]; intros str pos Hpos Hfuel;
    [lia|].
  cbn [ReplaceAll_loop].
  pose proof (find_spec str pos) as Hfind.
  destruct (find str from pos) as [p|].
  - destruct Hfind as (Hle & Hlen & Heq).
    unfold replace.
    destruct (Nat.ltb_spec (length str) p) as [Hlt|_]; [lia|].
    cbn [bind].
    assert (Hfrom : 0 < length from)
      by (destruct from; [congruence | simpl; lia]).
    assert (Htake : length (take p str) = p) by (apply length_take; lia).
    rewrite IH.
    + f_equal. rewrite Heq.
      replace (p + length to) with (length (take p str ++ to))
        by (rewrite length_append; lia).
      rewrite <- (append_assoc (take p str) to).
      rewrite take_append, drop_append.
      replace p with (pos + (p - pos)) at 1 by lia.
      rewrite take_add. now rewrite !append_assoc.
    + rewrite !length_append. lia.
    + rewrite !length_append, Htake.
      assert (length (drop (p + length from) str)
              = length str - (p + length from)).
      { pose proof (take_drop (p + length from) str) as Htd.
        apply (f_equal length) in Htd. rewrite length_append in Htd.
        rewrite length_take in Htd; lia. }
      lia.
  - now rewrite Hfind, take_drop.
Qed.

End ReplaceAllSpec.

Lemma escape_quotes_spec (s : string) :
  replace_occurrences dq (bs ++ dq) 0 s = escape_quotes s.
Proof.
  induction s as [|c s IH]; [reflexivity|].
  cbn [replace_occurrences escape_quotes].
  unfold dq at 1. cbn [prefix].
  destruct (ascii_dec "034" c) as [<-|Hne].
  - replace (prefix EmptyString s) with true by (now destruct s).
    change (length dq - 1) with 0. rewrite IH. reflexivity.
  - destruct (Ascii.eqb_spec c "034") as [->|_]; [congruence|].
    now rewrite IH.
Qed.

Lemma EscapeString_spec (str : string) :
  EscapeString str = Ret (escape_quotes str).
Proof.
  unfold EscapeString, ReplaceAll.
  rewrite ReplaceAll_loop_spec; [|discriminate|lia|lia].
  simpl. now rewrite escape_quotes_spec.
Qed.

(** With an empty pattern the loop never ends: every search succeeds where
    it starts, and the position stays within the grown string. *)
Lemma ReplaceAll_loop_empty_pattern (fuel : nat) (str to : string) (pos : nat) :
  pos <= length str ->
  ReplaceAll_loop fuel str EmptyString to pos = OutOfFuel.
Proof.
  revert str pos; induction fuel as [|fuel IH]; intros str pos Hpos;
    [reflexivity|].
  cbn [ReplaceAll_loop].
  assert (Hfind : find str EmptyString pos = Some pos).
  { unfold find. clear IH. revert pos Hpos.
    induction str as [|b s IHs]; intros [|n] Hn; simpl in *;
      try reflexivity; try lia.
    rewrite IHs; [reflexivity | lia]. }
  rewrite Hfind. unfold replace.
  destruct (Nat.ltb_spec (length str) pos); [lia|].
  cbn [bind]. apply IH.
  rewrite !length_append, length_take by lia. lia.
Qed.

(** C10: for a non-empty pattern ReplaceAll returns, within one iteration
    more than the string has characters and for any larger budget, whatever
    the replacement is (also one that contains the pattern); the result is
    the input with the left-to-right non-overlapping occurrences of the
    pattern replaced; and EscapeString returns its input with every
    double-quote turned into backslash, double-quote and nothing else
    changed. *)
Theorem ReplaceAll_terminates_and_replaces (str from to : string) :
  from <> EmptyString ->
  (forall fuel, length str < fuel ->
     ReplaceAll fuel str from to = Ret (replace_occurrences from to 0 str))
  /\ EscapeString str = Ret (escape_quotes str).
Proof.
  intros Hne. split.
  - intros fuel Hfuel. unfold ReplaceAll.
    rewrite ReplaceAll_loop_spec by (auto; lia). reflexivity.
  - apply EscapeString_spec.
Qed.

Lemma ReplaceAll_terminates_and_replaces_witness :
  ReplaceAll 7 "abcabc" "bc" "xbcx" = Ret "axbcxaxbcx"
  /\ EscapeString ("a" ++ dq ++ "b") = Ret ("a" ++ bs ++ dq ++ "b").
Proof.
  destruct (ReplaceAll_terminates_and_replaces "abcabc" "bc" "xbcx")
    as [Hloop Hesc]; [discriminate|].
  split.
  - rewrite (Hloop 7); [reflexivity | simpl; lia].
  - apply EscapeString_spec.
Defined.

(** ** EncodeMessageAsJSON *)

Lemma source_line_spec (m : Message.t) :
  source_line m = Ret (source_line_field (Message.GetSourceLine m)).
Proof.
  unfold source_line.
  destruct (Message.GetSourceLine m) as [line|]; [|reflexivity].
  cbn [IsEmpty negb ToLocalChecked bind].
  rewrite EscapeString_spec. reflexivity.
Qed.

Lemma line_number_spec (m : Message.t) :
  line_number m
  = Ret (optional_int_field "lineNumber" (Message.GetLineNumber m)).
Proof.
  unfold line_number. now destruct (Message.GetLineNumber m).
Qed.

Lemma start_column_spec (m : Message.t) :
  start_column m
  = Ret (optional_int_field "startColumn" (Message.GetStartColumn m)).
Proof.
  unfold start_column. now destruct (Message.GetStartColumn m).
Qed.

Lemma end_column_spec (m : Message.t) :
  end_column m
  = Ret (optional_int_field "endColumn" (Message.GetEndColumn m)).
Proof.
  unfold end_column. now destruct (Message.GetEndColumn m).
Qed.

Lemma optional_int_field_empty (key : string) (v : option Z) :
  optional_int_field key v = EmptyString <-> v = None.
Proof.
  destruct v as [n|]; simpl; split; intros H; try reflexivity;
    discriminate.
Qed.

(** The report is the layout around whatever the frames stream holds; it
    exists exactly when the frames stream could be written. *)
Lemma EncodeMessageAsJSON_layout (m : Message.t) :
  EncodeMessageAsJSON m
  = frames <- stack_trace_json m ;; Ret (report_layout m frames).
Proof.
  unfold EncodeMessageAsJSON.
  rewrite source_line_spec, line_number_spec, start_column_spec,
    end_column_spec.
  cbn [bind].
  destruct (stack_trace_json m) as [frames| |]; cbn [bind]; try reflexivity.
  unfold report_layout, report_head.
  rewrite !append_assoc. reflexivity.
Qed.

Lemma EncodeMessageAsJSON_inv (m : Message.t) (out : string) :
  EncodeMessageAsJSON m = Ret out ->
  exists frames,
    stack_trace_json m = Ret frames /\ out = report_layout m frames.
Proof.
  rewrite EncodeMessageAsJSON_layout.
  destruct (stack_trace_json m) as [frames| |]; cbn [bind]; intros H;
    try discriminate.
  exists frames. split; congruence.
Qed.

(** *** The frames of a real stack trace *)

Lemma uint32_small (z : Z) : (0 <= z < 2 ^ 32)%Z -> uint32 z = z.
Proof. intros H. unfold uint32. now apply Z.mod_small. Qed.

(** From index [i] on, the loop writes the remaining frames with a comma
    between two of them. *)
Lemma frames_loop_spec (frames : list StackFrame.t) (i count : Z) :
  (0 <= i)%Z ->
  (i + Z.of_nat (List.length frames) = count)%Z ->
  (count < 2 ^ 32)%Z ->
  frames_loop frames i count = concat "," (map frame_json frames).
Proof.
  revert i; induction frames as [|frame rest IH]; intros i Hi Hlen Hcount;
    [reflexivity|].
  cbn [frames_loop map List.length] in *.
  destruct (Z.ltb_spec i count) as [_|Hge]; [|lia].
  rewrite (uint32_small (count - 1)) by lia.
  rewrite (uint32_small (i + 1)) by lia.
  rewrite IH by lia.
  destruct rest as [|next rest'].
  - destruct (Z.ltb_spec i (count - 1)) as [Hlt|_];
      [simpl List.length in Hlen; lia|].
    simpl. now rewrite append_nil_r.
  - destruct (Z.ltb_spec i (count - 1)) as [_|Hge];
      [|simpl List.length in Hlen; lia].
    reflexivity.
Qed.

Lemma stack_trace_json_trace (m : Message.t) (frames : list StackFrame.t) :
  Message.GetStackTrace m = Some frames ->
  (Z.of_nat (List.length frames) < 2 ^ 31)%Z ->
  stack_trace_json m
  = Ret ("[" ++ concat "," (map frame_json frames) ++ "]").
Proof.
  intros Htrace Hlen. unfold stack_trace_json. rewrite Htrace.
  rewrite uint32_small by lia.
  rewrite frames_loop_spec by lia. reflexivity.
Qed.

(** *** The frame written when there is no stack trace *)

Lemma stack_trace_json_fallback (m : Message.t) :
  Message.GetStackTrace m = None ->
  stack_trace_json m
  = match Message.GetLineNumber m, Message.GetStartColumn m with
    | Some _, Some _ =>
        script_name <-
          ToLocalChecked (Message.StringifyScriptResourceName m) ;;
        Ret (fallback_frames script_name)
    | _, _ => Fatal "v8::FromJust: Maybe value is Nothing."
    end.
Proof.
  intros Htrace. unfold stack_trace_json. rewrite Htrace.
  destruct (Message.GetLineNumber m), (Message.GetStartColumn m);
    try reflexivity.
Qed.

(** Without a stack trace the report exists only when line number and
    start column are both resolved, and its one frame then carries neither
    of them. *)
Lemma fallback_frame_has_no_position (m : Message.t) (frames : string) :
  Message.GetStackTrace m = None ->
  stack_trace_json m = Ret frames ->
  Message.GetLineNumber m <> None /\ Message.GetStartColumn m <> None /\
  exists script_name,
    Message.StringifyScriptResourceName m = Some script_name /\
    frames = fallback_frames script_name.
Proof.
  intros Htrace. rewrite (stack_trace_json_fallback m Htrace).
  destruct (Message.GetLineNumber m), (Message.GetStartColumn m);
    try discriminate.
  destruct (Message.StringifyScriptResourceName m) as [name|];
    cbn; intros H; [|discriminate].
  repeat split; try discriminate.
  exists name. split; congruence.
Qed.

(** Without a stack trace an unresolved line number or start column ends
    the process in FromJust. *)
Lemma fallback_unresolved_is_fatal (m : Message.t) :
  Message.GetStackTrace m = None ->
  Message.GetLineNumber m = None \/ Message.GetStartColumn m = None ->
  EncodeMessageAsJSON m = Fatal "v8::FromJust: Maybe value is Nothing.".
Proof.
  intros Htrace Hnone.
  rewrite EncodeMessageAsJSON_layout, (stack_trace_json_fallback m Htrace).
  destruct (Message.GetLineNumber m), (Message.GetStartColumn m);
    try reflexivity.
  destruct Hnone; discriminate.
Qed.

(** *** Reports as JSON texts *)

(** A parse that fails within the first twenty calls fails whatever the
    fuel is: with less fuel it runs out, with more it meets the same
    error. *)
Ltac refute_parse H :=
  match type of H with
  | parse ?fuel _ = Some _ =>
      do 20 (destruct fuel as [|fuel]; [vm_compute in H; discriminate|]);
      vm_compute in H; discriminate
  end.

(** A message with a two-frame stack trace and plain texts gives a report
    that is a JSON document of the report schema. *)
Example message_with_trace_report :
  exists out,
    EncodeMessageAsJSON message_with_trace = Ret out /\ valid_report out.
Proof.
  eexists. split; [vm_compute; reflexivity|].
  exists 30. eexists. split; vm_compute; reflexivity.
Qed.

(** C1: the report is not always a JSON text.  A double-quote in the
    message text is written as it is and ends the message string early;
    and the frame of a message without stack trace holds the stringified
    script name, double-quotes included, between two more double-quotes.
    Neither report parses. *)
Theorem EncodeMessageAsJSON_not_always_json :
  (exists out,
     EncodeMessageAsJSON message_with_quote = Ret out /\ ~ valid_json out)
  /\ (exists out,
        EncodeMessageAsJSON message_no_trace = Ret out /\ ~ valid_json out).
Proof.
  split; (eexists; split; [vm_compute; reflexivity|]);
    intros (fuel & j & H); refute_parse H.
Qed.

(** C3: report construction can end the process.  For a message without
    stack trace whose line number is unresolved, the branch that writes the
    synthetic frame calls FromJust on the empty line number, and no report
    is produced. *)
Theorem EncodeMessageAsJSON_fatal_without_trace :
  Message.GetStackTrace message_unresolved_line = None
  /\ Message.GetLineNumber message_unresolved_line = None
  /\ EncodeMessageAsJSON message_unresolved_line
     = Fatal "v8::FromJust: Maybe value is Nothing.".
Proof. repeat split. Qed.

(** C4: for a message without stack trace whose line number (3) and start
    column (6) are both resolved, the synthetic frame holds the scriptName
    key only: its line and column keys are left out although both values
    are resolved.  With the line number unresolved the frame is not written
    at all. *)
Theorem fallback_frame_omits_resolved_position :
  Message.GetLineNumber message_no_trace = Some 3%Z
  /\ Message.GetStartColumn message_no_trace = Some 6%Z
  /\ stack_trace_json message_no_trace
     = Ret ("[{" ++ quoted "scriptName" ++ ": " ++ dq ++ quoted "a.js" ++ dq
            ++ sp4 ++ "}]")
  /\ stack_trace_json message_unresolved_line
     = Fatal "v8::FromJust: Maybe value is Nothing.".
Proof. repeat split. Qed.

(** C5: a double-quote in the message text reaches the report unescaped,
    while the same character in the source line is escaped; the report of
    such a message does not parse. *)
Theorem message_text_is_not_escaped :
  exists out,
    EncodeMessageAsJSON message_with_quote = Ret out
    /\ report_message out ("Uncaught Error: say " ++ dq ++ "hi" ++ dq)
    /\ source_line message_with_quote
       = Ret (quoted "sourceLine" ++ ": " ++ dq
              ++ "throw Error('say " ++ bs ++ dq ++ "hi" ++ bs ++ dq ++ "');"
              ++ dq ++ ",")
    /\ ~ valid_json out.
Proof.
  eexists. split; [vm_compute; reflexivity|].
  split; [eexists; vm_compute; reflexivity|].
  split; [reflexivity|].
  intros (fuel & j & H); refute_parse H.
Qed.

(** Whatever the message text is, it opens the report exactly as the engine
    gave it. *)
Lemma report_message_verbatim (m : Message.t) (out : string) :
  EncodeMessageAsJSON m = Ret out -> report_message out (Message.Get m).
Proof.
  intros H. apply EncodeMessageAsJSON_inv in H as (frames & _ & ->).
  unfold report_message, report_layout, report_head.
  eexists. rewrite !append_assoc. reflexivity.
Qed.

(** C6, as the code has it: a message with a stack trace gets one frame
    object per frame of the trace, in trace order, hence an empty array
    for a trace without frames; a message without stack trace, when its
    report is produced, gets exactly one synthesized frame, which ends with
    the stringified script name; and the frames value of a report is this
    text. *)
Theorem frames_follow_stack_trace (m : Message.t) :
  (forall frames,
     Message.GetStackTrace m = Some frames ->
     (Z.of_nat (List.length frames) < 2 ^ 31)%Z ->
     stack_trace_json m
     = Ret ("[" ++ concat "," (map frame_json frames) ++ "]"))
  /\ (forall text,
        Message.GetStackTrace m = None ->
        stack_trace_json m = Ret text ->
        exists line column script_name,
          Message.StringifyScriptResourceName m = Some script_name /\
          text = "[{" ++ optional_int_field "line" line
                 ++ optional_int_field "column" column
                 ++ quoted "scriptName" ++ ": " ++ dq ++ script_name ++ dq
                 ++ sp4 ++ "}]")
  /\ (forall out,
        EncodeMessageAsJSON m = Ret out ->
        exists text,
          stack_trace_json m = Ret text /\ out = report_layout m text).
Proof.
  split; [|split].
  - intros frames. apply stack_trace_json_trace.
  - intros text Htrace Hret.
    destruct (fallback_frame_has_no_position m text Htrace Hret)
      as (_ & _ & name & Hname & ->).
    now exists None, None, name.
  - apply EncodeMessageAsJSON_inv.
Qed.

Lemma frames_follow_stack_trace_witness :
  stack_trace_json message_with_trace
  = Ret ("[" ++ frame_json frame_main ++ "," ++ frame_json frame_anonymous
         ++ "]")
  /\ (exists line column script_name,
        Message.StringifyScriptResourceName message_no_trace
        = Some script_name /\
        stack_trace_json message_no_trace
        = Ret ("[{" ++ optional_int_field "line" line
               ++ optional_int_field "column" column
               ++ quoted "scriptName" ++ ": " ++ dq ++ script_name ++ dq
               ++ sp4 ++ "}]"))
  /\ exists text,
       stack_trace_json message_with_trace = Ret text /\
       EncodeMessageAsJSON message_with_trace
       = Ret (report_layout message_with_trace text).
Proof.
  split; [|split].
  - destruct (frames_follow_stack_trace message_with_trace) as (H & _ & _).
    rewrite (H [frame_main; frame_anonymous]);
      [reflexivity | reflexivity | simpl; lia].
  - destruct (frames_follow_stack_trace message_no_trace) as (_ & H & _).
    destruct (H (fallback_frames (quoted "a.js")))
      as (line & column & name & Hname & Heq);
      [reflexivity | reflexivity |].
    exists line, column, name. split; [exact Hname | now rewrite <- Heq].
  - destruct (frames_follow_stack_trace message_with_trace) as (_ & _ & H).
    destruct (H (report_layout message_with_trace
                   ("[" ++ frame_json frame_main ++ ","
                    ++ frame_json frame_anonymous ++ "]")))
      as (text & Htext & Heq); [vm_compute; reflexivity|].
    exists text. split; [exact Htext|].
    rewrite <- Heq. vm_compute. reflexivity.
Defined.

(** C6, as stated, fails: a stack trace object without frames is not an
    empty handle, so no frame is synthesized and frames is the empty
    array. *)
Lemma frames_empty_for_trace_without_frames :
  Message.GetStackTrace message_zero_frames = Some []
  /\ stack_trace_json message_zero_frames = Ret "[]"
  /\ exists out members,
       EncodeMessageAsJSON message_zero_frames = Ret out
       /\ parse 30 out = Some (JObject members)
       /\ lookup "frames" members = Some (JArray []).
Proof.
  split; [reflexivity|]. split; [reflexivity|].
  eexists. eexists. split; [vm_compute; reflexivity|].
  split; vm_compute; reflexivity.
Qed.

(** C7: the lineNumber and startColumn keys of the report do not always
    follow their own resolution.  For a message without stack trace whose
    line number is unresolved and whose start column is resolved, report
    construction ends the process before anything is written, so there is
    no report that holds startColumn.  And a message text with a
    double-quote can bring a lineNumber member of its own into the report
    of a message whose line number is unresolved. *)
Theorem position_keys_fail_on_defects :
  (Message.GetLineNumber message_unresolved_line = None
   /\ Message.GetStartColumn message_unresolved_line = Some 6%Z
   /\ EncodeMessageAsJSON message_unresolved_line
      = Fatal "v8::FromJust: Maybe value is Nothing.")
  /\ (Message.GetLineNumber message_injected_line = None
      /\ exists out members,
           EncodeMessageAsJSON message_injected_line = Ret out
           /\ parse 30 out = Some (JObject members)
           /\ lookup "lineNumber" members = Some (JString "7")).
Proof.
  split; [repeat split|]. split; [reflexivity|].
  eexists. eexists. split; [vm_compute; reflexivity|].
  split; vm_compute; reflexivity.
Qed.

(** ** The dispatcher *)

Section DispatcherSpec.

Context {engine : Engine}.

(** Outside termination one activation does all the work. *)
Lemma HandleException_running (depth : nat) (isolate : Isolate)
  (exception : Value) :
  IsExecutionTerminating isolate = false ->
  HandleException (S depth) isolate exception
  = json_str <- EncodeExceptionAsJSON exception ;;
    _ <- CHECK_NOT_NULL (FromIsolate isolate) ;;
    Ret (set_last_exception isolate json_str).
Proof. intros H. cbn [HandleException]. now rewrite H. Qed.

(** Under termination the outer activation wraps exactly one inner
    activation, which runs on the isolate with the signal cancelled. *)
Lemma HandleException_terminating (depth : nat) (isolate : Isolate)
  (exception : Value) :
  IsExecutionTerminating isolate = true ->
  HandleException (S depth) isolate exception
  = inner <- HandleException depth (CancelTerminateExecution isolate)
               (if IsNullOrUndefined exception
                then Exception_Error "execution terminated"
                else exception) ;;
    Ret (TerminateExecution inner).
Proof. intros H. cbn [HandleException]. now rewrite H. Qed.

(** With two levels of depth both branches of HandleException come to
    the same three steps: encode the handled value, check the
    DenoIsolate, store the report. *)
Lemma HandleException_steps (depth : nat) (isolate : Isolate)
  (exception : Value) :
  HandleException (S (S depth)) isolate exception
  = json_str <- EncodeExceptionAsJSON (handled isolate exception) ;;
    _ <- CHECK_NOT_NULL (deno_isolate isolate) ;;
    Ret (published isolate json_str).
Proof.
  unfold handled, published.
  destruct (IsExecutionTerminating isolate) eqn:Hterm.
  - rewrite HandleException_terminating by exact Hterm.
    rewrite HandleException_running by reflexivity.
    unfold IsExecutionTerminating in Hterm. rewrite Hterm.
    destruct (EncodeExceptionAsJSON _) as [json_str| |]; try reflexivity.
    cbn [bind]. unfold FromIsolate.
    cbn [CancelTerminateExecution deno_isolate].
    now destruct (deno_isolate isolate).
  - rewrite HandleException_running by exact Hterm.
    unfold IsExecutionTerminating in Hterm. unfold set_last_exception.
    rewrite Hterm. reflexivity.
Qed.

(** A call returns only with the depth its branch needs. *)
Lemma HandleException_depth (depth : nat) (isolate isolate' : Isolate)
  (exception : Value) :
  HandleException depth isolate exception = Ret isolate' ->
  (exists d, depth = S (S d))
  \/ (depth = 1 /\ IsExecutionTerminating isolate = false).
Proof.
  destruct depth as [|[|d]]; [discriminate| |eauto].
  destruct (IsExecutionTerminating isolate) eqn:Hterm; [|auto].
  rewrite HandleException_terminating by exact Hterm. discriminate.
Qed.

(** Every return of HandleException: the report of the handled value was
    encoded, the isolate has a DenoIsolate, and the state is the
    published one. *)
Lemma HandleException_returns (depth : nat) (isolate isolate' : Isolate)
  (exception : Value) :
  HandleException depth isolate exception = Ret isolate' ->
  exists json_str,
    EncodeExceptionAsJSON (handled isolate exception) = Ret json_str
    /\ deno_isolate isolate <> None
    /\ isolate' = published isolate json_str.
Proof.
  intros Hret.
  destruct (HandleException_depth _ _ _ _ Hret) as [(d & ->)|(-> & Hterm)].
  - rewrite HandleException_steps in Hret.
    destruct (EncodeExceptionAsJSON _) as [json_str| |]; try discriminate.
    cbn [bind] in Hret.
    destruct (deno_isolate isolate); [|discriminate].
    cbn in Hret. injection Hret as <-.
    exists json_str. repeat split. discriminate.
  - rewrite HandleException_running in Hret by exact Hterm.
    unfold handled. rewrite Hterm.
    destruct (EncodeExceptionAsJSON _) as [json_str| |]; try discriminate.
    cbn [bind] in Hret. unfold FromIsolate in Hret.
    destruct (deno_isolate isolate); [|discriminate].
    cbn in Hret. injection Hret as <-.
    exists json_str. repeat split; [discriminate|].
    unfold set_last_exception, published.
    unfold IsExecutionTerminating in Hterm. now rewrite Hterm.
Qed.

(** Every return of HandleExceptionMessage, likewise. *)
Lemma HandleExceptionMessage_returns (depth : nat)
  (isolate isolate' : Isolate) (message : Message.t) :
  HandleExceptionMessage depth isolate message = Ret isolate' ->
  exists json_str,
    (if IsExecutionTerminating isolate
     then EncodeExceptionAsJSON (Exception_Error "execution terminated")
     else EncodeMessageAsJSON message) = Ret json_str
    /\ deno_isolate isolate <> None
    /\ isolate' = published isolate json_str.
Proof.
  unfold HandleExceptionMessage.
  destruct (IsExecutionTerminating isolate) eqn:Hterm.
  - intros Hret.
    destruct (HandleException_returns _ _ _ _ Hret)
      as (json_str & Hjson & Hd & Heq).
    unfold handled in Hjson. rewrite Hterm in Hjson.
    now exists json_str.
  - destruct (EncodeMessageAsJSON message) as [json_str| |];
      try discriminate.
    cbn [bind]. unfold FromIsolate.
    destruct (deno_isolate isolate); [|discriminate].
    cbn. intros [= <-].
    exists json_str. repeat split; [discriminate|].
    unfold set_last_exception, published.
    unfold IsExecutionTerminating in Hterm. now rewrite Hterm.
Qed.

(** With two levels of depth HandleExceptionMessage does return, with the
    report in the slot, whenever that report can be encoded and the
    isolate has its DenoIsolate. *)
Lemma HandleExceptionMessage_publishes (depth : nat) (isolate : Isolate)
  (message : Message.t) (json_str : string) (d : DenoIsolate) :
  (if IsExecutionTerminating isolate
   then EncodeExceptionAsJSON (Exception_Error "execution terminated")
   else EncodeMessageAsJSON message) = Ret json_str ->
  deno_isolate isolate = Some d ->
  HandleExceptionMessage (S (S depth)) isolate message
  = Ret (published isolate json_str).
Proof.
  unfold HandleExceptionMessage. intros Hjson Hd.
  destruct (IsExecutionTerminating isolate) eqn:Hterm.
  - rewrite HandleException_steps. unfold handled. rewrite Hterm.
    cbn [IsNullOrUndefined]. now rewrite Hjson, Hd.
  - rewrite Hjson. unfold FromIsolate. rewrite Hd. cbn.
    unfold set_last_exception, published.
    unfold IsExecutionTerminating in Hterm. now rewrite Hterm.
Qed.

(** C2, as the code has it: while IsExecutionTerminating holds, an
    activation of HandleException cannot finish on its own (one level of
    depth runs out) and never needs more than one nested activation (two
    levels always do); the nested activation runs with the termination
    cancelled, on the synthesized error when the value is null or
    undefined and on the value itself otherwise, and takes the branch that
    encodes and publishes; TerminateExecution is applied to what it
    returns.  The call returns whenever the report of that value can be
    encoded and the isolate has its DenoIsolate; when it returns,
    termination is requested again while IsExecutionTerminating reads
    false, and the slot holds the report of that value, whose message
    field is the text the engine gives to the message of that value. *)
Theorem HandleException_while_terminating (isolate : Isolate)
  (exception : Value) :
  IsExecutionTerminating isolate = true ->
  let handled_value :=
    if IsNullOrUndefined exception
    then Exception_Error "execution terminated"
    else exception in
  HandleException 1 isolate exception = OutOfFuel
  /\ (forall depth,
        HandleException (S (S depth)) isolate exception
        = inner <- HandleException 1 (CancelTerminateExecution isolate)
                     handled_value ;;
          Ret (TerminateExecution inner))
  /\ IsExecutionTerminating (CancelTerminateExecution isolate) = false
  /\ termination_requested (CancelTerminateExecution isolate) = false
  /\ HandleException 1 (CancelTerminateExecution isolate) handled_value
     = (json_str <- EncodeExceptionAsJSON handled_value ;;
        _ <- CHECK_NOT_NULL (FromIsolate isolate) ;;
        Ret (set_last_exception (CancelTerminateExecution isolate)
               json_str))
  /\ (forall depth json_str d,
        EncodeExceptionAsJSON handled_value = Ret json_str ->
        deno_isolate isolate = Some d ->
        HandleException (S (S depth)) isolate exception
        = Ret {| execution_terminating := false;
                 termination_requested := true;
                 deno_isolate := Some {| last_exception_ := json_str |} |})
  /\ (forall depth isolate',
        HandleException depth isolate exception = Ret isolate' ->
        termination_requested isolate' = true
        /\ IsExecutionTerminating isolate' = false
        /\ exists json_str,
             EncodeExceptionAsJSON handled_value = Ret json_str
             /\ last_exception isolate' = Some json_str
             /\ report_message json_str
                  (Message.Get (CreateMessage handled_value))).
Proof.
  intros Hterm handled_value.
  assert (Hhandled : handled isolate exception = handled_value)
    by (unfold handled; now rewrite Hterm).
  split; [|split; [|split; [|split; [|split; [|split]]]]].
  - rewrite HandleException_terminating by exact Hterm. reflexivity.
  - intros depth.
    rewrite HandleException_terminating by exact Hterm.
    now rewrite !(HandleException_running _ (CancelTerminateExecution _)).
  - reflexivity.
  - reflexivity.
  - now rewrite HandleException_running.
  - intros depth json_str d Hjson Hd.
    rewrite HandleException_steps, Hhandled, Hjson, Hd. cbn.
    unfold published. unfold IsExecutionTerminating in Hterm.
    now rewrite Hterm.
  - intros depth isolate' Hret.
    destruct (HandleException_returns _ _ _ _ Hret)
      as (json_str & Hjson & _ & ->).
    rewrite Hhandled in Hjson.
    unfold IsExecutionTerminating in Hterm.
    split; [cbn; now rewrite Hterm|]. split; [reflexivity|].
    exists json_str. split; [exact Hjson|]. split; [reflexivity|].
    apply report_message_verbatim. exact Hjson.
Qed.

(** C8: under termination HandleExceptionMessage is
    HandleException on undefined: the message plays no part, and the
    report a returning call leaves in the slot is the report of the
    synthesized execution terminated error. *)
Theorem HandleExceptionMessage_while_terminating (depth : nat)
  (isolate : Isolate) (message : Message.t) :
  IsExecutionTerminating isolate = true ->
  HandleExceptionMessage depth isolate message
  = HandleException depth isolate Undefined
  /\ (forall other,
        HandleExceptionMessage depth isolate message
        = HandleExceptionMessage depth isolate other)
  /\ (forall isolate',
        HandleExceptionMessage depth isolate message = Ret isolate' ->
        exists json_str,
          EncodeExceptionAsJSON (Exception_Error "execution terminated")
          = Ret json_str
          /\ last_exception isolate' = Some json_str
          /\ termination_requested isolate' = true).
Proof.
  intros Hterm. unfold HandleExceptionMessage. rewrite Hterm.
  split; [reflexivity|]. split; [reflexivity|].
  intros isolate' Hret.
  destruct (HandleException_returns _ _ _ _ Hret)
    as (json_str & Hjson & _ & ->).
  unfold handled in Hjson. rewrite Hterm in Hjson.
  exists json_str. repeat split; try assumption.
  cbn. unfold IsExecutionTerminating in Hterm. now rewrite Hterm.
Qed.

(** C9: a call of HandleException or of HandleExceptionMessage that
    returns leaves in the slot the report it has just encoded, whatever
    the slot held before; both do return, with that report in the slot,
    whenever the report can be encoded and the isolate has its
    DenoIsolate; and after two calls in a row the slot holds the report of
    the second, which is the report of the second value itself since no
    call returns with IsExecutionTerminating still true.  The same holds
    when the engine changes its termination state between the two
    calls. *)
Theorem last_exception_overwritten (depth : nat) (isolate : Isolate) :
  (forall exception isolate',
     HandleException depth isolate exception = Ret isolate' ->
     exists json_str,
       EncodeExceptionAsJSON (handled isolate exception) = Ret json_str
       /\ last_exception isolate' = Some json_str)
  /\ (forall message isolate',
        HandleExceptionMessage depth isolate message = Ret isolate' ->
        exists json_str,
          (if IsExecutionTerminating isolate
           then EncodeExceptionAsJSON
                  (Exception_Error "execution terminated")
           else EncodeMessageAsJSON message) = Ret json_str
          /\ last_exception isolate' = Some json_str)
  /\ (forall exception json_str d,
        EncodeExceptionAsJSON (handled isolate exception) = Ret json_str ->
        deno_isolate isolate = Some d ->
        exists isolate',
          HandleException (S (S depth)) isolate exception = Ret isolate'
          /\ last_exception isolate' = Some json_str)
  /\ (forall message json_str d,
        (if IsExecutionTerminating isolate
         then EncodeExceptionAsJSON
                (Exception_Error "execution terminated")
         else EncodeMessageAsJSON message) = Ret json_str ->
        deno_isolate isolate = Some d ->
        exists isolate',
          HandleExceptionMessage (S (S depth)) isolate message
          = Ret isolate'
          /\ last_exception isolate' = Some json_str)
  /\ (forall first second isolate1 isolate2,
        HandleException depth isolate first = Ret isolate1 ->
        HandleException depth isolate1 second = Ret isolate2 ->
        exists json_str,
          EncodeExceptionAsJSON second = Ret json_str
          /\ last_exception isolate2 = Some json_str)
  /\ (forall first second isolate1 isolate2,
        HandleExceptionMessage depth isolate first = Ret isolate1 ->
        HandleExceptionMessage depth isolate1 second = Ret isolate2 ->
        exists json_str,
          EncodeMessageAsJSON second = Ret json_str
          /\ last_exception isolate2 = Some json_str)
  /\ (forall first second isolate1 between isolate2,
        HandleException depth isolate first = Ret isolate1 ->
        deno_isolate between = deno_isolate isolate1 ->
        HandleException depth between second = Ret isolate2 ->
        exists json_str,
          EncodeExceptionAsJSON (handled between second) = Ret json_str
          /\ last_exception isolate2 = Some json_str).
Proof.
  split; [|split; [|split; [|split; [|split; [|split]]]]].
  - intros exception isolate' Hret.
    destruct (HandleException_returns _ _ _ _ Hret)
      as (json_str & Hjson & _ & ->).
    now exists json_str.
  - intros message isolate' Hret.
    destruct (HandleExceptionMessage_returns _ _ _ _ Hret)
      as (json_str & Hjson & _ & ->).
    now exists json_str.
  - intros exception json_str d Hjson Hd.
    exists (published isolate json_str).
    now rewrite HandleException_steps, Hjson, Hd.
  - intros message json_str d Hjson Hd.
    exists (published isolate json_str).
    now rewrite (HandleExceptionMessage_publishes _ _ _ _ _ Hjson Hd).
  - intros first second isolate1 isolate2 Hfirst Hsecond.
    destruct (HandleException_returns _ _ _ _ Hfirst)
      as (json1 & _ & _ & Heq).
    subst isolate1.
    destruct (HandleException_returns _ _ _ _ Hsecond)
      as (json_str & Hjson & _ & ->).
    exists json_str. split; [exact Hjson | reflexivity].
  - intros first second isolate1 isolate2 Hfirst Hsecond.
    destruct (HandleExceptionMessage_returns _ _ _ _ Hfirst)
      as (json1 & _ & _ & Heq).
    subst isolate1.
    destruct (HandleExceptionMessage_returns _ _ _ _ Hsecond)
      as (json_str & Hjson & _ & ->).
    exists json_str. split; [exact Hjson | reflexivity].
  - intros first second isolate1 between isolate2 _ _ Hsecond.
    destruct (HandleException_returns _ _ _ _ Hsecond)
      as (json_str & Hjson & _ & ->).
    now exists json_str.
Qed.

End DispatcherSpec.

Lemma HandleException_while_terminating_witness :
  IsExecutionTerminating terminating_isolate = true
  /\ HandleException (engine := uncaught_engine) 1 terminating_isolate
       Undefined = OutOfFuel
  /\ exists isolate' json_str,
       HandleException (engine := uncaught_engine) 2 terminating_isolate
         Undefined = Ret isolate'
       /\ termination_requested isolate' = true
       /\ IsExecutionTerminating isolate' = false
       /\ last_exception isolate' = Some json_str
       /\ report_message json_str "Uncaught Error: execution terminated".
Proof.
  split; [reflexivity|].
  destruct (HandleException_while_terminating (engine := uncaught_engine)
              terminating_isolate Undefined eq_refl)
    as (Hone & _ & _ & _ & _ & _ & Hret).
  split; [exact Hone|].
  destruct (HandleException (engine := uncaught_engine) 2
              terminating_isolate Undefined) as [isolate'| |] eqn:Hrun;
    [|vm_compute in Hrun; discriminate|vm_compute in Hrun; discriminate].
  destruct (Hret 2 isolate' Hrun)
    as (Hrequest & Hsignal & json_str & _ & Hslot & Htext).
  exists isolate', json_str.
  split; [reflexivity|]. split; [exact Hrequest|].
  split; [exact Hsignal|]. split; [exact Hslot|]. exact Htext.
Defined.

(** C2, as stated, fails on an engine that words the message of an error
    the way V8 does: the report of a null value handled under termination
    has the message Uncaught Error: execution terminated, not the bare
    text, and IsExecutionTerminating reads false when the call returns,
    termination being requested only. *)
Lemma terminated_report_worded_by_engine :
  IsExecutionTerminating terminating_isolate = true
  /\ exists isolate' json_str,
       HandleException (engine := uncaught_engine) 2 terminating_isolate
         Null = Ret isolate'
       /\ last_exception isolate' = Some json_str
       /\ report_message json_str "Uncaught Error: execution terminated"
       /\ ~ report_message json_str "execution terminated"
       /\ IsExecutionTerminating isolate' = false.
Proof.
  split; [reflexivity|].
  eexists. eexists. split; [vm_compute; reflexivity|].
  split; [reflexivity|].
  split; [eexists; vm_compute; reflexivity|].
  split; [|reflexivity].
  intros (rest & H). vm_compute in H. discriminate H.
Qed.

Lemma HandleExceptionMessage_while_terminating_witness :
  IsExecutionTerminating terminating_isolate = true
  /\ HandleExceptionMessage (engine := plain_engine) 2 terminating_isolate
       message_with_quote
     = HandleException (engine := plain_engine) 2 terminating_isolate
         Undefined
  /\ exists isolate' json_str,
       HandleExceptionMessage (engine := plain_engine) 2 terminating_isolate
         message_with_quote = Ret isolate'
       /\ EncodeExceptionAsJSON (engine := plain_engine)
            (Exception_Error "execution terminated") = Ret json_str
       /\ last_exception isolate' = Some json_str.
Proof.
  split; [reflexivity|].
  destruct (HandleExceptionMessage_while_terminating
              (engine := plain_engine) 2 terminating_isolate
              message_with_quote eq_refl)
    as (Heq & _ & Hret).
  split; [exact Heq|].
  destruct (HandleExceptionMessage (engine := plain_engine) 2
              terminating_isolate message_with_quote)
    as [isolate'| |] eqn:Hrun;
    [|vm_compute in Hrun; discriminate|vm_compute in Hrun; discriminate].
  destruct (Hret isolate' eq_refl) as (json_str & Hjson & Hslot & _).
  exists isolate', json_str. repeat split; assumption.
Defined.

Lemma last_exception_overwritten_witness :
  exists isolate1 isolate2 json_str,
    HandleExceptionMessage (engine := uncaught_engine) 2 running_isolate
      message_with_trace = Ret isolate1
    /\ last_exception isolate1 <> Some "previous report"
    /\ HandleExceptionMessage (engine := uncaught_engine) 2 isolate1
         message_zero_frames = Ret isolate2
    /\ EncodeMessageAsJSON message_zero_frames = Ret json_str
    /\ last_exception isolate2 = Some json_str
    /\ exists isolate3 report,
         HandleException (engine := uncaught_engine) 2 terminating_isolate
           Undefined = Ret isolate3
         /\ EncodeExceptionAsJSON (engine := uncaught_engine)
              (Exception_Error "execution terminated") = Ret report
         /\ last_exception isolate3 = Some report.
Proof.
  destruct (last_exception_overwritten (engine := uncaught_engine) 0
              running_isolate) as (_ & _ & _ & Hmessage & _).
  destruct (last_exception_overwritten (engine := uncaught_engine) 2
              running_isolate) as (_ & _ & _ & _ & _ & Htwo & _).
  destruct (last_exception_overwritten (engine := uncaught_engine) 0
              terminating_isolate) as (_ & _ & Hvalue & _).
  destruct (EncodeMessageAsJSON message_with_trace) as [json1| |] eqn:Hjson1;
    [|vm_compute in Hjson1; discriminate|vm_compute in Hjson1; discriminate].
  destruct (Hmessage message_with_trace json1
              {| last_exception_ := "previous report" |} Hjson1 eq_refl)
    as (isolate1 & Hfirst & Hslot1).
  destruct (HandleExceptionMessage (engine := uncaught_engine) 2 isolate1
              message_zero_frames) as [isolate2| |] eqn:Hsecond;
    [|vm_compute in Hfirst; injection Hfirst as Heq; subst isolate1;
      vm_compute in Hsecond; discriminate
     |vm_compute in Hfirst; injection Hfirst as Heq; subst isolate1;
      vm_compute in Hsecond; discriminate].
  destruct (Htwo message_with_trace message_zero_frames isolate1 isolate2
              Hfirst Hsecond) as (json_str & Hjson & Hslot).
  destruct (EncodeExceptionAsJSON (engine := uncaught_engine)
              (Exception_Error "execution terminated"))
    as [report| |] eqn:Hreport;
    [|vm_compute in Hreport; discriminate|vm_compute in Hreport; discriminate].
  destruct (Hvalue Undefined report
              {| last_exception_ := "previous report" |} Hreport eq_refl)
    as (isolate3 & Hthird & Hslot3).
  exists isolate1, isolate2, json_str.
  split; [exact Hfirst|].
  split; [rewrite Hslot1; vm_compute in Hjson1;
          injection Hjson1 as Heq; subst json1; discriminate|].
  split; [exact Hsecond|]. split; [exact Hjson|]. split; [exact Hslot|].
  exists isolate3, report. repeat split; try assumption; reflexivity.
Defined.

(** ** Reading reports back *)

(** *** Characters *)

Lemma code_34_eqb (c : ascii) : code_in 34 34 c = Ascii.eqb c "034".
Proof. destruct c as [[] [] [] [] [] [] [] []]; reflexivity. Qed.

Lemma plain_char_spec (c : ascii) :
  plain_char c = true ->
  code_in 34 34 c = false /\ code_in 92 92 c = false /\ is_control c = false.
Proof.
  unfold plain_char.
  destruct (code_in 34 34 c), (code_in 92 92 c), (is_control c);
    simpl; intros H; try discriminate; auto.
Qed.

Lemma escapable_char_spec (c : ascii) :
  escapable_char c = true ->
  code_in 92 92 c = false /\ is_control c = false.
Proof.
  unfold escapable_char.
  destruct (code_in 92 92 c), (is_control c);
    simpl; intros H; try discriminate; auto.
Qed.

Lemma skip_ws_pad (pad s : string) :
  all_ws pad = true -> skip_ws (pad ++ s) = skip_ws s.
Proof.
  induction pad as [|c pad IH]; simpl; intros H; [reflexivity|].
  apply andb_true_iff in H as [Hc Hpad]. rewrite Hc. auto.
Qed.

(** *** String literals *)

Lemma string_body_plain (t rest : string) :
  plain t = true ->
  string_body InText (t ++ String "034" rest) = Some (t, rest).
Proof.
  induction t as [|c t IH]; intros H; [reflexivity|].
  simpl in H. apply andb_true_iff in H as [Hc Ht].
  apply plain_char_spec in Hc as (Hq & Hb & Hctl).
  simpl. rewrite Hq, Hb, Hctl, (IH Ht). reflexivity.
Qed.

Lemma string_body_escaped (t rest : string) :
  escapable t = true ->
  string_body InText (escape_quotes t ++ String "034" rest)
  = Some (escape_quotes t, rest).
Proof.
  induction t as [|c t IH]; intros H; [reflexivity|].
  simpl in H. apply andb_true_iff in H as [Hc Ht].
  apply escapable_char_spec in Hc as (Hb & Hctl).
  cbn [escape_quotes].
  destruct (Ascii.eqb c "034") eqn:Hq.
  - cbn. rewrite (IH Ht). reflexivity.
  - cbn [append string_body]. rewrite code_34_eqb, Hq, Hb, Hctl, (IH Ht).
    reflexivity.
Qed.

(** *** Integers *)

Lemma nzhead_not_D0 (d d' : Decimal.uint) :
  Decimal.nzhead d <> Decimal.D0 d'.
Proof. induction d; simpl; try discriminate. exact IHd. Qed.

Lemma span_digits_uint (d : Decimal.uint) (rest : string) :
  span_digits (NilEmpty.string_of_uint d ++ String "," rest)
  = (NilEmpty.string_of_uint d, String "," rest).
Proof.
  induction d; cbn [NilEmpty.string_of_uint append span_digits];
    try reflexivity;
    (change (is_digit _) with true; cbn iota; rewrite IHd; reflexivity).
Qed.

(** A positive number is written without leading zero, and read back as
    one number up to the comma that follows it. *)
Lemma lex_unsigned_pos (p : positive) (rest : string) :
  lex_unsigned (NilZero.string_of_uint (Pos.to_uint p) ++ String "," rest)
  = Some (NilZero.string_of_uint (Pos.to_uint p), String "," rest).
Proof.
  assert (Hnorm : Decimal.unorm (Pos.to_uint p) = Pos.to_uint p).
  { rewrite <- (Unsigned.to_of (Pos.to_uint p)), Unsigned.of_to.
    reflexivity. }
  pose proof (Unsigned.to_uint_nonnil p) as Hnil.
  pose proof (Unsigned.to_uint_nonzero p) as Hzero.
  pose proof (span_digits_uint (Pos.to_uint p) rest) as Hspan.
  destruct (Pos.to_uint p) as [|d|d|d|d|d|d|d|d|d|d] eqn:Hd;
    try congruence.
  { exfalso. unfold Decimal.unorm in Hnorm. cbn [Decimal.nzhead] in Hnorm.
    destruct (Decimal.nzhead d) eqn:Hnz; try congruence.
    now apply nzhead_not_D0 in Hnz. }
  all: unfold lex_unsigned, lex_int, some_digits.
  all: cbn [NilZero.string_of_uint] in *.
  all: cbn [NilEmpty.string_of_uint append] in *.
  all: match goal with
       | |- context [code_in 48 48 ?c] => change (code_in 48 48 c) with false
       end.
  all: cbn iota; rewrite Hspan.
  all: change (lex_frac (String "," rest))
         with (Some (EmptyString, String "," rest)); cbn iota.
  all: change (lex_exp (String "," rest))
         with (Some (EmptyString, String "," rest)); cbn iota.
  all: cbn [append]; rewrite append_nil_r; reflexivity.
Qed.

Lemma lex_number_show_int (z : Z) (rest : string) :
  lex_number (show_int z ++ String "," rest)
  = Some (show_int z, String "," rest).
Proof.
  unfold show_int. destruct z as [|p|p]; cbn [Z.to_int NilZero.string_of_int].
  - reflexivity.
  - pose proof (lex_unsigned_pos p rest) as H.
    pose proof (Unsigned.to_uint_nonnil p) as Hnil.
    destruct (Pos.to_uint p) eqn:Hd; try congruence;
      cbn [NilZero.string_of_uint NilEmpty.string_of_uint append] in *;
      unfold lex_number; change (code_in 45 45 _) with false; cbn iota;
      exact H.
  - cbn [append]. unfold lex_number. change (code_in 45 45 "-") with true.
    cbn iota. rewrite lex_unsigned_pos. reflexivity.
Qed.

(** The first character of a written integer is a digit or a minus sign. *)
Lemma show_int_head (z : Z) :
  exists c r, show_int z = String c r
              /\ (is_digit c || code_in 45 45 c) = true.
Proof.
  unfold show_int. destruct z as [|p|p]; cbn [Z.to_int NilZero.string_of_int].
  - now exists "0"%char, EmptyString.
  - pose proof (Unsigned.to_uint_nonnil p) as Hnil.
    destruct (Pos.to_uint p); try congruence;
      cbn [NilZero.string_of_uint NilEmpty.string_of_uint];
      eexists; eexists; split; reflexivity.
  - now exists "-"%char, (NilZero.string_of_uint (Pos.to_uint p)).
Qed.

(** *** Values *)

Lemma skip_ws_idempotent (s : string) : skip_ws (skip_ws s) = skip_ws s.
Proof.
  induction s as [|c s IH]; [reflexivity|].
  simpl. destruct (is_ws c) eqn:Hc; [exact IH|].
  simpl. now rewrite Hc.
Qed.

Lemma json_value_skip (f : nat) (s : string) :
  json_value f (skip_ws s) = json_value f s.
Proof.
  destruct f as [|f]; [reflexivity|].
  cbn [json_value]. now rewrite skip_ws_idempotent.
Qed.

Lemma json_value_quote (f : nat) (r : string) :
  json_value (S f) (String "034" r) = tag JString (string_body InText r).
Proof. reflexivity. Qed.

Lemma json_value_brace (f : nat) (r : string) :
  json_value (S f) (String "{" r)
  = match skip_ws r with
    | EmptyString => None
    | String c' r' =>
        if code_in 125 125 c' then Some (JObject [], r')
        else tag JObject (json_members f r)
    end.
Proof. reflexivity. Qed.

Lemma json_value_bracket (f : nat) (r : string) :
  json_value (S f) (String "[" r)
  = match skip_ws r with
    | EmptyString => None
    | String c' r' =>
        if code_in 93 93 c' then Some (JArray [], r')
        else tag JArray (json_elements f r)
    end.
Proof. reflexivity. Qed.

Lemma json_value_number (f : nat) (c : ascii) (r : string) :
  (is_digit c || code_in 45 45 c) = true ->
  json_value (S f) (String c r) = tag JNumber (lex_number (String c r)).
Proof.
  intros H.
  destruct c as [[] [] [] [] [] [] [] []]; try discriminate H; reflexivity.
Qed.

Lemma json_value_bool (f : nat) (b : bool) (rest : string) :
  json_value (S f) (show_bool b ++ rest) = Some (JBool b, rest).
Proof. destruct b, rest; reflexivity. Qed.

Lemma json_value_scalar (f : nat) (v : scalar) (rest : string) :
  scalar_ok v ->
  json_value (S f) (String " " (scalar_text v ++ String "," rest))
  = Some (scalar_json v, String "," rest).
Proof.
  intros Hok.
  rewrite <- json_value_skip. cbn [skip_ws]. change (is_ws " ") with true.
  cbn iota. rewrite json_value_skip.
  destruct v as [raw|z|b]; cbn [scalar_text scalar_json].
  - unfold dq. rewrite !append_assoc. cbn [append].
    rewrite json_value_quote, (Hok (String "," rest)). reflexivity.
  - destruct (show_int_head z) as (c & r & Heq & Hc).
    pose proof (lex_number_show_int z rest) as Hlex.
    rewrite Heq in *. cbn [append] in *.
    rewrite json_value_number by exact Hc.
    rewrite Hlex. reflexivity.
  - apply json_value_bool.
Qed.

(** *** Members *)

Lemma json_members_step (f : nat) (pad key r2 : string) :
  all_ws pad = true ->
  string_body_of key ->
  json_members (S f) (pad ++ quoted key ++ String ":" r2)
  = match json_value f r2 with
    | None => None
    | Some (v, r3) =>
        match skip_ws r3 with
        | EmptyString => None
        | String sep r4 =>
            if code_in 125 125 sep then Some ([(key, v)], r4)
            else if code_in 44 44 sep
                 then tag (cons (key, v)) (json_members f r4)
                 else None
        end
    end.
Proof.
  intros Hpad Hkey. cbn [json_members].
  rewrite (skip_ws_pad pad _ Hpad).
  unfold quoted, dq. rewrite !append_assoc. cbn [append skip_ws].
  change (is_ws "034") with false. cbn iota.
  change (code_in 34 34 "034") with true. cbn iota.
  rewrite Hkey. cbn [skip_ws].
  change (is_ws ":") with false. cbn iota.
  change (code_in 58 58 ":") with true. cbn iota. reflexivity.
Qed.

Lemma json_members_field (f : nat) (fld : field) (rest : string) :
  field_ok fld ->
  json_members (S (S f)) (field_text fld ++ rest)
  = tag (cons (field_json fld)) (json_members (S f) rest).
Proof.
  destruct fld as [[pad key] v]. intros (Hpad & Hkey & Hv).
  cbn [field_text field_json].
  rewrite !append_assoc. cbn [append].
  rewrite json_members_step by assumption.
  rewrite (json_value_scalar f v rest Hv). reflexivity.
Qed.

Lemma tag_app_nil {A : Type} (r : option (list A * string)) :
  tag (app []) r = r.
Proof. now destruct r as [[l s]|]. Qed.

Lemma tag_cons_app {A : Type} (a : A) (l : list A)
  (r : option (list A * string)) :
  tag (cons a) (tag (app l) r) = tag (app (a :: l)) r.
Proof. now destruct r as [[l' s]|]. Qed.

(** Members written one after the other are read one after the other;
    what follows them is read with the fuel that is left. *)
Lemma json_members_fields (fs : list field) (f : nat) (rest : string) :
  Forall field_ok fs ->
  json_members (List.length fs + S f) (fields_text fs ++ rest)
  = tag (app (map field_json fs)) (json_members (S f) rest).
Proof.
  induction 1 as [|fld fs Hfld Hfs IH]; cbn [List.length fields_text map].
  - now rewrite tag_app_nil.
  - rewrite append_assoc.
    replace (S (List.length fs) + S f) with (S (S (List.length fs + f)))
      by lia.
    rewrite json_members_field by exact Hfld.
    replace (S (List.length fs + f)) with (List.length fs + S f) by lia.
    rewrite IH. apply tag_cons_app.
Qed.

Lemma plain_string_body (t : string) : plain t = true -> string_body_of t.
Proof. intros H rest. now apply string_body_plain. Qed.

Lemma escaped_string_body (t : string) :
  escapable t = true -> string_body_of (escape_quotes t).
Proof. intros H rest. now apply string_body_escaped. Qed.

Ltac field_ok_tac :=
  repeat match goal with
         | |- Forall _ (_ :: _) => constructor
         | |- Forall _ [] => constructor
         | |- field_ok _ => repeat split
         | |- scalar_ok (SText _) =>
             first [assumption | apply plain_string_body]
         | |- scalar_ok _ => exact I
         | |- string_body_of _ => apply plain_string_body
         end;
  try reflexivity; try assumption.

(** *** Frames *)

Lemma fields_text_head (fs : list field) (rest : string) :
  Forall field_ok fs ->
  fs <> [] ->
  exists r, skip_ws (fields_text fs ++ rest) = String "034" r.
Proof.
  intros H Hne. destruct H as [|[[pad key] v] fs (Hpad & _ & _) _];
    [congruence|].
  cbn [fields_text field_text]. unfold quoted, dq.
  rewrite !append_assoc, (skip_ws_pad _ _ Hpad). cbn [append skip_ws].
  change (is_ws "034") with false. cbn iota. eauto.
Qed.


Lemma frame_json_fields (fr : StackFrame.t) :
  frame_json fr
  = "{" ++ fields_text (frame_fields fr)
    ++ sp8 ++ quoted "isWasm" ++ String ":"
         (String " " (show_bool (StackFrame.IsWasm fr) ++ sp6 ++ "}")).
Proof.
  unfold frame_json, frame_fields. cbn [fields_text field_text scalar_text].
  rewrite !append_assoc. reflexivity.
Qed.

Lemma frame_fields_ok (fr : StackFrame.t) :
  plain_frame fr = true -> Forall field_ok (frame_fields fr).
Proof.
  unfold plain_frame. intros H. apply andb_true_iff in H as [Hname Hscript].
  unfold frame_fields. field_ok_tac.
  destruct (StackFrame.GetScriptNameOrSourceURL fr); [assumption|reflexivity].
Qed.

(** A frame with plain names is read back as the object of its seven
    members. *)
Lemma frame_parses (fr : StackFrame.t) (f : nat) (rest : string) :
  plain_frame fr = true ->
  json_value (9 + f) (frame_json fr ++ rest) = Some (frame_value fr, rest).
Proof.
  intros Hplain. rewrite frame_json_fields.
  change (9 + f) with (S (List.length (frame_fields fr) + S (S f))).
  cbn [append]. rewrite json_value_brace.
  destruct (fields_text_head (frame_fields fr)
              ((sp8 ++ quoted "isWasm" ++ String ":"
                  (String " " (show_bool (StackFrame.IsWasm fr)
                               ++ sp6 ++ "}"))) ++ rest)
              (frame_fields_ok fr Hplain)) as (r & Hr); [discriminate|].
  rewrite !append_assoc in *. rewrite Hr.
  change (code_in 125 125 "034") with false. cbn iota.
  rewrite (json_members_fields _ _ _ (frame_fields_ok fr Hplain)).
  cbn [append].
  rewrite json_members_step by field_ok_tac.
  rewrite <- json_value_skip. cbn [skip_ws]. change (is_ws " ") with true.
  cbn iota. rewrite json_value_skip.
  rewrite append_assoc, json_value_bool.
  reflexivity.
Qed.

(** The frames of a non-empty trace, commas between them, are read back in
    order up to the closing bracket. *)
Lemma frames_parse (frames : list StackFrame.t) (f : nat) (rest : string) :
  frames <> [] ->
  forallb plain_frame frames = true ->
  json_elements (List.length frames + 9 + f)
    (concat "," (map frame_json frames) ++ String "]" rest)
  = Some (map frame_value frames, rest).
Proof.
  induction frames as [|fr frames IH]; intros Hne Hplain; [congruence|].
  cbn [forallb] in Hplain. apply andb_true_iff in Hplain as [Hfr Hrest].
  cbn [List.length map].
  replace (S (List.length frames) + 9 + f)
    with (S (9 + (List.length frames + f))) by lia.
  cbn [json_elements].
  destruct frames as [|next frames'].
  - cbn [concat map]. rewrite (frame_parses fr _ _ Hfr). reflexivity.
  - change (concat "," (frame_json fr :: map frame_json (next :: frames')))
      with (frame_json fr ++ ","
            ++ concat "," (map frame_json (next :: frames'))).
    rewrite !append_assoc. rewrite (frame_parses fr _ _ Hfr).
    cbn [append skip_ws]. change (is_ws ",") with false. cbn iota.
    change (code_in 93 93 ",") with false.
    change (code_in 44 44 ",") with true. cbn iota.
    replace (9 + (List.length (next :: frames') + f))
      with (List.length (next :: frames') + 9 + f) by lia.
    rewrite IH by (congruence || assumption). reflexivity.
Qed.

Lemma frame_json_head (fr : StackFrame.t) (rest : string) :
  exists r, frame_json fr ++ rest = String "{" r.
Proof. rewrite frame_json_fields. cbn [append]. eauto. Qed.

(** The frames array of a trace, empty or not, is read back as the array
    of its frames. *)
Lemma frames_array_parses (frames : list StackFrame.t) (f : nat)
  (rest : string) :
  forallb plain_frame frames = true ->
  json_value (List.length frames + 10 + f)
    (String " " ("[" ++ concat "," (map frame_json frames) ++ "]" ++ rest))
  = Some (JArray (map frame_value frames), rest).
Proof.
  intros Hplain.
  replace (List.length frames + 10 + f)
    with (S (List.length frames + 9 + f)) by lia.
  rewrite <- json_value_skip. cbn [skip_ws append].
  change (is_ws " ") with true. cbn iota.
  change (is_ws "[") with false. cbn iota.
  rewrite json_value_bracket.
  destruct frames as [|fr frames'].
  - reflexivity.
  - assert (Hhead : exists r,
               concat "," (map frame_json (fr :: frames'))
               ++ String "]" rest = String "{" r).
    { cbn [map concat]. destruct (map frame_json frames').
      - apply frame_json_head.
      - rewrite append_assoc. apply frame_json_head. }
    destruct Hhead as (r & Hr). rewrite Hr. cbn [skip_ws].
    change (is_ws "{") with false. cbn iota.
    change (code_in 93 93 "{") with false. cbn iota.
    rewrite <- Hr.
    rewrite frames_parse by (congruence || assumption). reflexivity.
Qed.

(** *** Reports *)

Lemma fields_text_app (a b : list field) :
  fields_text (a ++ b) = fields_text a ++ fields_text b.
Proof.
  induction a as [|x a IH]; [reflexivity|].
  cbn [app fields_text]. now rewrite IH, append_assoc.
Qed.

Lemma optional_int_field_text (key : string) (v : option Z) :
  fields_text (optional_field key (option_map SInt v))
  = optional_int_field key v.
Proof.
  destruct v; [|reflexivity].
  cbn. now rewrite !append_assoc, append_nil_r.
Qed.

Lemma report_layout_fields (m : Message.t) (frames : string) :
  report_layout m frames
  = "{" ++ fields_text (top_fields m)
    ++ quoted "frames" ++ String ":" (String " " (frames ++ "}")).
Proof.
  unfold report_layout, top_fields.
  rewrite !fields_text_app, !optional_int_field_text.
  assert (Hsrc : fields_text
                   (optional_field "sourceLine"
                      (option_map (fun line => SText (escape_quotes line))
                         (Message.GetSourceLine m)))
                 = source_line_field (Message.GetSourceLine m)).
  { destruct (Message.GetSourceLine m); [|reflexivity].
    cbn. now rewrite !append_assoc, append_nil_r. }
  rewrite Hsrc. unfold report_head.
  cbn [fields_text field_text scalar_text].
  rewrite !append_assoc, ?append_nil_r. reflexivity.
Qed.

Lemma optional_field_ok (key : string) (v : option scalar) :
  plain key = true ->
  match v with Some s => scalar_ok s | None => True end ->
  Forall field_ok (optional_field key v).
Proof.
  intros Hkey Hv. destruct v; cbn; field_ok_tac.
Qed.

Lemma top_fields_tail_ok (m : Message.t) :
  top_texts_ok m = true -> Forall field_ok (tl (top_fields m)).
Proof.
  unfold top_texts_ok. intros H.
  apply andb_true_iff in H as [Hname Hsrc].
  unfold top_fields. cbn [app tl].
  change (?a :: ?b :: ?c :: ?d :: ?e :: ?f :: ?rest)
    with ([a; b; c; d; e; f] ++ rest)%list.
  repeat (apply Forall_app; split).
  - field_ok_tac.
  - apply optional_field_ok; [reflexivity|].
    destruct (Message.GetSourceLine m); cbn; [|exact I].
    now apply escaped_string_body.
  - apply optional_field_ok; [reflexivity|].
    now destruct (Message.GetLineNumber m).
  - apply optional_field_ok; [reflexivity|].
    now destruct (Message.GetStartColumn m).
  - apply optional_field_ok; [reflexivity|].
    now destruct (Message.GetEndColumn m).
Qed.

Lemma top_fields_ok (m : Message.t) :
  string_body_of (Message.Get m) ->
  top_texts_ok m = true ->
  Forall field_ok (top_fields m).
Proof.
  intros Htext H.
  change (top_fields m)
    with ((sp4, "message", SText (Message.Get m)) :: tl (top_fields m)).
  constructor; [field_ok_tac | now apply top_fields_tail_ok].
Qed.

(** An object of scalar members followed by the frames of a trace is
    read back member by member. *)
Lemma object_parses (fields : list field) (frames : list StackFrame.t) :
  Forall field_ok fields ->
  fields <> [] ->
  forallb plain_frame frames = true ->
  parse (List.length fields + List.length frames + 12)
    ("{" ++ fields_text fields
     ++ quoted "frames"
     ++ String ":"
          (String " " (("[" ++ concat "," (map frame_json frames) ++ "]")
                       ++ "}")))
  = Some (JObject (map field_json fields
                   ++ [("frames", JArray (map frame_value frames))])%list).
Proof.
  intros Hfields Hne Hframes. unfold parse.
  replace (List.length fields + List.length frames + 12)
    with (S (List.length fields + S (List.length frames + 10 + 0))) by lia.
  change ("{" ++ ?x) with (String "{" x). rewrite json_value_brace.
  destruct (fields_text_head fields
              (quoted "frames" ++ String ":"
                 (String " " (("[" ++ concat "," (map frame_json frames)
                               ++ "]") ++ "}"))) Hfields Hne) as (r & Hr).
  rewrite Hr. change (code_in 125 125 "034") with false. cbn iota.
  rewrite (json_members_fields _ _ _ Hfields).
  change (quoted "frames" ++ ?x) with (EmptyString ++ quoted "frames" ++ x).
  rewrite json_members_step by field_ok_tac.
  rewrite !append_assoc.
  rewrite (frames_array_parses frames 0 "}" Hframes).
  reflexivity.
Qed.

(** The report of a message with a stack trace, when the texts of its
    top-level members are string bodies and its frames have plain names. *)
Lemma report_parses (m : Message.t) (frames : list StackFrame.t) :
  string_body_of (Message.Get m) ->
  benign_but_text m = true ->
  Message.GetStackTrace m = Some frames ->
  EncodeMessageAsJSON m
  = Ret (report_layout m ("[" ++ concat "," (map frame_json frames) ++ "]"))
  /\ parse (List.length (top_fields m) + List.length frames + 12)
       (report_layout m ("[" ++ concat "," (map frame_json frames) ++ "]"))
     = Some (report_value m frames).
Proof.
  intros Htext Hbenign Htrace.
  unfold benign_but_text in Hbenign. rewrite Htrace in Hbenign.
  apply andb_true_iff in Hbenign as [Htop Hframes].
  pose proof (top_fields_ok m Htext Htop) as Hfields.
  apply andb_true_iff in Hframes as [Hplain Hlen].
  apply Z.ltb_lt in Hlen.
  split.
  - rewrite EncodeMessageAsJSON_layout.
    now rewrite (stack_trace_json_trace m frames Htrace Hlen).
  - rewrite report_layout_fields.
    apply object_parses; [exact Hfields | discriminate | exact Hplain].
Qed.

Lemma report_value_conforms (m : Message.t) (frames : list StackFrame.t) :
  conforms (report_value m frames) = true.
Proof.
  unfold report_value, top_fields.
  destruct (Message.GetSourceLine m), (Message.GetLineNumber m),
    (Message.GetStartColumn m), (Message.GetEndColumn m); reflexivity.
Qed.

(** ** Further properties of ReplaceAll and EscapeString *)

(** X1: with an empty pattern ReplaceAll never returns, whatever the
    string and the replacement are: no number of iterations ends its
    loop. *)
Theorem ReplaceAll_empty_pattern_never_returns (fuel : nat)
  (str to : string) :
  ReplaceAll fuel str EmptyString to = OutOfFuel.
Proof.
  unfold ReplaceAll. apply ReplaceAll_loop_empty_pattern. lia.
Qed.

Lemma prefix_drop (p s : string) :
  prefix p s = true -> p ++ drop (length p) s = s.
Proof.
  revert s; induction p as [|a p IH]; intros s H; [reflexivity|].
  destruct s as [|b s]; simpl in H; [discriminate|].
  destruct (ascii_dec a b) as [->|]; [|discriminate].
  simpl. now rewrite IH.
Qed.

Lemma length_drop_le (n : nat) (s : string) : length (drop n s) <= length s.
Proof.
  revert s; induction n as [|n IH]; intros [|c s]; simpl; try lia.
  specialize (IH s). lia.
Qed.

Lemma replace_occurrences_same (from s : string) :
  from <> EmptyString -> replace_occurrences from from 0 s = s.
Proof.
  intros Hne.
  remember (length s) as n eqn:Hn. revert s Hn.
  induction n as [n IH] using lt_wf_ind. intros s Hn.
  destruct s as [|c s]; [reflexivity|].
  destruct (prefix from (String c s)) eqn:Hp.
  - rewrite (replace_occurrences_at from from Hne c s Hp).
    rewrite (IH (length (drop (length from) (String c s)))); trivial.
    + now apply prefix_drop.
    + subst n. destruct from as [|a p]; [congruence|]. simpl.
      pose proof (length_drop_le (length p) s). lia.
  - cbn [replace_occurrences]. rewrite Hp.
    rewrite (IH (length s)); trivial. subst n. simpl. lia.
Qed.

(** X2: replacing a non-empty pattern by itself returns the string
    unchanged, although every occurrence is rewritten. *)
Theorem ReplaceAll_same_replacement (fuel : nat) (str from : string) :
  from <> EmptyString ->
  length str < fuel ->
  ReplaceAll fuel str from from = Ret str.
Proof.
  intros Hne Hfuel. unfold ReplaceAll.
  rewrite ReplaceAll_loop_spec by (trivial; lia).
  cbn [take drop append].
  replace (take 0 str) with EmptyString by (now destruct str).
  replace (drop 0 str) with str by (now destruct str).
  cbn [append]. now rewrite replace_occurrences_same.
Qed.

Lemma ReplaceAll_same_replacement_witness :
  ReplaceAll 5 "abab" "ab" "ab" = Ret "abab".
Proof.
  apply ReplaceAll_same_replacement; [discriminate | simpl; lia].
Defined.

Lemma escape_quotes_head (s r : string) :
  escape_quotes s <> String "034" r.
Proof.
  destruct s as [|c s]; [discriminate|].
  cbn [escape_quotes]. destruct (Ascii.eqb_spec c "034"); congruence.
Qed.

Lemma escape_quotes_injective (s1 s2 : string) :
  escape_quotes s1 = escape_quotes s2 -> s1 = s2.
Proof.
  revert s2; induction s1 as [|c1 s1 IH]; intros [|c2 s2];
    cbn [escape_quotes]; intros H.
  - reflexivity.
  - destruct (Ascii.eqb c2 "034"); discriminate.
  - destruct (Ascii.eqb c1 "034"); discriminate.
  - destruct (Ascii.eqb_spec c1 "034") as [->|H1],
      (Ascii.eqb_spec c2 "034") as [->|H2].
    + injection H as H. now rewrite (IH s2 H).
    + injection H as Hc H. symmetry in H. now apply escape_quotes_head in H.
    + injection H as Hc H. now apply escape_quotes_head in H.
    + injection H as -> H. now rewrite (IH s2 H).
Qed.

(** X3: EscapeString loses nothing: two different texts have different
    escaped forms. *)
Theorem EscapeString_injective (s1 s2 : string) :
  s1 <> s2 -> EscapeString s1 <> EscapeString s2.
Proof.
  rewrite !EscapeString_spec. intros Hne [= H].
  now apply Hne, escape_quotes_injective.
Qed.

Lemma EscapeString_injective_witness :
  EscapeString dq <> EscapeString (bs ++ dq).
Proof.
  apply EscapeString_injective. discriminate.
Defined.

Lemma length_escape_quotes (s : string) :
  length (escape_quotes s) = length s + count_quotes s.
Proof.
  induction s as [|c s IH]; [reflexivity|].
  cbn [escape_quotes count_quotes].
  destruct (Ascii.eqb c "034"); simpl; rewrite IH; lia.
Qed.

(** X4: EscapeString lengthens a text by one character per double-quote,
    and returns it unchanged exactly when it holds no double-quote. *)
Theorem EscapeString_length (s : string) :
  exists out,
    EscapeString s = Ret out
    /\ length out = length s + count_quotes s
    /\ (out = s <-> count_quotes s = 0).
Proof.
  exists (escape_quotes s). split; [apply EscapeString_spec|].
  split; [apply length_escape_quotes|].
  split.
  - intros H. apply (f_equal length) in H.
    rewrite length_escape_quotes in H. lia.
  - induction s as [|c s IH]; [reflexivity|].
    cbn [count_quotes escape_quotes].
    destruct (Ascii.eqb c "034"); [discriminate|].
    intros H. now rewrite IH.
Qed.

(** X5: between two double-quotes, the escaped form of a text without
    backslash and control character is a JSON string, whose body is that
    escaped form. *)
Theorem EscapeString_string_literal (s : string) (fuel : nat) :
  escapable s = true ->
  exists out,
    EscapeString s = Ret out
    /\ parse (S fuel) (dq ++ out ++ dq) = Some (JString out).
Proof.
  intros H. exists (escape_quotes s). split; [apply EscapeString_spec|].
  unfold parse, dq. cbn [append]. rewrite json_value_quote.
  now rewrite (string_body_escaped s EmptyString H).
Qed.

Lemma EscapeString_string_literal_witness :
  exists out,
    EscapeString ("say " ++ dq ++ "hi" ++ dq) = Ret out
    /\ parse 1 (dq ++ out ++ dq) = Some (JString out).
Proof.
  apply EscapeString_string_literal. reflexivity.
Defined.

Lemma escape_quotes_app (a b : string) :
  escape_quotes (a ++ b) = escape_quotes a ++ escape_quotes b.
Proof.
  induction a as [|c a IH]; [reflexivity|].
  cbn [append escape_quotes]. destruct (Ascii.eqb c "034");
    cbn [append]; now rewrite IH.
Qed.

Lemma string_body_escaped_then (t rest : string) :
  escapable t = true ->
  string_body InText (escape_quotes t ++ rest)
  = match string_body InText rest with
    | Some (body, r) => Some (escape_quotes t ++ body, r)
    | None => None
    end.
Proof.
  induction t as [|c t IH]; intros H.
  - cbn [escape_quotes append]. now destruct (string_body InText rest) as [[]|].
  - simpl in H. apply andb_true_iff in H as [Hc Ht].
    apply escapable_char_spec in Hc as (Hb & Hctl).
    cbn [escape_quotes].
    destruct (Ascii.eqb c "034") eqn:Hq.
    + cbn. rewrite (IH Ht).
      now destruct (string_body InText rest) as [[]|].
    + cbn [append string_body].
      rewrite code_34_eqb, Hq, Hb, Hctl, (IH Ht).
      now destruct (string_body InText rest) as [[]|].
Qed.

(** X6: backslashes are not escaped.  The escaped form of a text that
    ends with a backslash, after any text without backslash and control
    character, is not a JSON string between two double-quotes: its last
    backslash escapes the closing double-quote. *)
Theorem EscapeString_keeps_backslash (s : string) :
  escapable s = true ->
  exists out,
    EscapeString (s ++ bs) = Ret out
    /\ out = escape_quotes s ++ bs
    /\ ~ valid_json (dq ++ out ++ dq).
Proof.
  intros H. exists (escape_quotes (s ++ bs)).
  split; [apply EscapeString_spec|].
  rewrite escape_quotes_app. split; [reflexivity|].
  intros (fuel & j & Hparse). unfold parse in Hparse.
  destruct fuel as [|fuel]; [discriminate|].
  unfold dq in Hparse at 1. cbn [append] in Hparse.
  rewrite json_value_quote in Hparse.
  rewrite append_assoc, (string_body_escaped_then s _ H) in Hparse.
  discriminate.
Qed.

Lemma EscapeString_keeps_backslash_witness :
  exists out,
    EscapeString ("C:" ++ bs) = Ret out
    /\ out = "C:" ++ bs
    /\ ~ valid_json (dq ++ out ++ dq).
Proof.
  apply (EscapeString_keeps_backslash "C:"). reflexivity.
Defined.

(** ** When and what EncodeMessageAsJSON returns *)

(** X7: report construction never exhausts the escaping loop, and it
    returns exactly for the messages that have a stack trace or, without
    one, a resolved line number, a resolved start column and a
    stringified script resource name. *)
Theorem EncodeMessageAsJSON_returns_iff (m : Message.t) :
  EncodeMessageAsJSON m <> OutOfFuel
  /\ ((exists out, EncodeMessageAsJSON m = Ret out) <->
      (Message.GetStackTrace m <> None
       \/ (Message.GetLineNumber m <> None
           /\ Message.GetStartColumn m <> None
           /\ Message.StringifyScriptResourceName m <> None))).
Proof.
  rewrite EncodeMessageAsJSON_layout.
  destruct (Message.GetStackTrace m) as [frames|] eqn:Htrace.
  - unfold stack_trace_json. rewrite Htrace. cbn [bind].
    split; [discriminate|]. split; [intros _; left; discriminate|eauto].
  - rewrite (stack_trace_json_fallback m Htrace).
    destruct (Message.GetLineNumber m), (Message.GetStartColumn m),
      (Message.StringifyScriptResourceName m); cbn;
      (split; [discriminate|]);
      (split;
       [ intros (out & H); try discriminate; right; repeat split; discriminate
       | intros [H|(H1 & H2 & H3)]; try congruence; eauto ]).
Qed.

(** X8: the report of a benign message (plain message text and names, an
    escapable source line, a stack trace) is a JSON document that
    conforms to the report schema. *)
Theorem benign_report_valid (m : Message.t) :
  benign m = true ->
  exists out, EncodeMessageAsJSON m = Ret out /\ valid_report out.
Proof.
  unfold benign. intros H. apply andb_true_iff in H as [Htext Hrest].
  assert (Htrace : exists frames, Message.GetStackTrace m = Some frames).
  { unfold benign_but_text in Hrest.
    apply andb_true_iff in Hrest as [_ Hrest].
    destruct (Message.GetStackTrace m); [eauto | discriminate]. }
  destruct Htrace as (frames & Htrace).
  destruct (report_parses m frames (plain_string_body _ Htext) Hrest Htrace)
    as (Hout & Hparse).
  eexists. split; [exact Hout|].
  eexists. eexists. split; [exact Hparse|].
  apply report_value_conforms.
Qed.

Lemma benign_report_valid_witness :
  exists out,
    EncodeMessageAsJSON message_with_trace = Ret out /\ valid_report out.
Proof.
  apply benign_report_valid. reflexivity.
Defined.

(** X9: reading the report of a benign message back gives each member the
    value the message has: the texts and numbers of the required members,
    the escaped source line, each of lineNumber, startColumn and endColumn
    exactly when it is resolved, and one frame object per frame of the
    trace, in trace order. *)
Theorem benign_report_members (m : Message.t) (frames : list StackFrame.t) :
  benign m = true ->
  Message.GetStackTrace m = Some frames ->
  exists out members,
    EncodeMessageAsJSON m = Ret out
    /\ parse (List.length (top_fields m) + List.length frames + 12) out
       = Some (JObject members)
    /\ lookup "message" members = Some (JString (Message.Get m))
    /\ lookup "scriptResourceName" members
       = Some (JString (Message.GetScriptResourceName m))
    /\ lookup "startPosition" members
       = Some (JNumber (show_int (Message.GetStartPosition m)))
    /\ lookup "endPosition" members
       = Some (JNumber (show_int (Message.GetEndPosition m)))
    /\ lookup "errorLevel" members
       = Some (JNumber (show_int (Message.ErrorLevel m)))
    /\ lookup "isSharedCrossOrigin" members
       = Some (JBool (Message.IsSharedCrossOrigin m))
    /\ lookup "isOpaque" members = Some (JBool (Message.IsOpaque m))
    /\ lookup "sourceLine" members
       = option_map (fun line => JString (escape_quotes line))
           (Message.GetSourceLine m)
    /\ lookup "lineNumber" members
       = option_map (fun n => JNumber (show_int n)) (Message.GetLineNumber m)
    /\ lookup "startColumn" members
       = option_map (fun n => JNumber (show_int n))
           (Message.GetStartColumn m)
    /\ lookup "endColumn" members
       = option_map (fun n => JNumber (show_int n)) (Message.GetEndColumn m)
    /\ lookup "frames" members = Some (JArray (map frame_value frames)).
Proof.
  unfold benign. intros H Htrace. apply andb_true_iff in H as [Htext Hrest].
  destruct (report_parses m frames (plain_string_body _ Htext) Hrest Htrace)
    as (Hout & Hparse).
  eexists. eexists. split; [exact Hout|]. split; [exact Hparse|].
  unfold top_fields.
  destruct (Message.GetSourceLine m), (Message.GetLineNumber m),
    (Message.GetStartColumn m), (Message.GetEndColumn m);
    repeat split; reflexivity.
Qed.

Lemma benign_report_members_witness :
  exists out members,
    EncodeMessageAsJSON message_with_trace = Ret out
    /\ parse 24 out = Some (JObject members)
    /\ lookup "lineNumber" members = None
    /\ lookup "startColumn" members = Some (JNumber "6")
    /\ lookup "frames" members
       = Some (JArray [frame_value frame_main; frame_value frame_anonymous]).
Proof.
  destruct (benign_report_members message_with_trace
              [frame_main; frame_anonymous] eq_refl eq_refl)
    as (out & members & Hout & Hparse & _ & _ & _ & _ & _ & _ & _ & _
        & Hline & Hcol & _ & Hframes).
  exists out, members. repeat split; assumption.
Defined.

(** ** Double-quotes that reach the report unescaped *)

Lemma breaks_member_spec (s rest : string) :
  breaks_member s = true ->
  exists c r,
    skip_ws (s ++ String "034" rest) = String c r
    /\ code_in 125 125 c = false /\ code_in 44 44 c = false.
Proof.
  unfold breaks_member. induction s as [|c s IH]; intros H.
  - exists "034"%char, rest. repeat split.
  - cbn [append skip_ws] in *. destruct (is_ws c) eqn:Hc; [auto|].
    exists c, (s ++ String "034" rest).
    apply negb_true_iff, orb_false_iff in H. tauto.
Qed.

(** An object whose first member is a string ended early by a
    double-quote of its own, with a text after it that cannot continue
    the object, is not read, whatever the fuel. *)
Lemma first_member_breaks (g : nat) (pad key a b rest : string) :
  all_ws pad = true ->
  string_body_of key ->
  string_body_of a ->
  breaks_member b = true ->
  json_value g
    (String "{"
       (pad ++ quoted key
        ++ String ":"
             (String " "
                (String "034" (a ++ String "034" (b ++ String "034" rest))))))
  = None.
Proof.
  intros Hpad Hkey Ha Hb.
  destruct g as [|g]; [reflexivity|]. rewrite json_value_brace.
  rewrite (skip_ws_pad pad _ Hpad).
  unfold quoted at 1, dq at 1. rewrite !append_assoc. cbn [append skip_ws].
  change (is_ws "034") with false. cbn iota.
  change (code_in 125 125 "034") with false. cbn iota.
  destruct g as [|g]; [reflexivity|].
  rewrite json_members_step by assumption.
  destruct g as [|g]; [reflexivity|].
  rewrite <- json_value_skip. cbn [skip_ws]. change (is_ws " ") with true.
  cbn iota. change (is_ws "034") with false. cbn iota.
  rewrite json_value_quote, Ha. cbn [tag].
  destruct (breaks_member_spec b rest Hb) as (c & r & -> & H1 & H2).
  now rewrite H1, H2.
Qed.

(** X10: a double-quote in the message text ends the message string of the
    report, and what follows it is read as JSON.  Whenever the report is
    produced and the text after that double-quote cannot continue an
    object (after its leading white space it does not start with a comma
    or a closing brace), the report is not a JSON text. *)
Theorem quote_in_message_breaks_report (m : Message.t)
  (before after out : string) :
  Message.Get m = before ++ dq ++ after ->
  plain before = true ->
  breaks_member after = true ->
  EncodeMessageAsJSON m = Ret out ->
  ~ valid_json out.
Proof.
  intros Hget Hbefore Hafter Hout (fuel & j & Hparse).
  apply EncodeMessageAsJSON_inv in Hout as (frames & _ & ->).
  rewrite report_layout_fields in Hparse.
  change (top_fields m)
    with ((sp4, "message", SText (Message.Get m)) :: tl (top_fields m))
    in Hparse.
  cbn [fields_text field_text scalar_text] in Hparse.
  rewrite Hget in Hparse. unfold dq in Hparse at 1 2 3.
  rewrite !append_assoc in Hparse. cbn [append] in Hparse.
  unfold parse in Hparse.
  change (String "{" (String " " (String " " (String " " (String " " ?x)))))
    with (String "{" (sp4 ++ x)) in Hparse.
  rewrite first_member_breaks in Hparse;
    [discriminate | reflexivity | field_ok_tac | field_ok_tac | assumption].
Qed.

Lemma quote_in_message_breaks_report_witness :
  exists out,
    EncodeMessageAsJSON message_with_quote = Ret out /\ ~ valid_json out.
Proof.
  eexists. split; [vm_compute; reflexivity|].
  apply (quote_in_message_breaks_report message_with_quote
           "Uncaught Error: say " ("hi" ++ dq));
    reflexivity.
Defined.

Lemma benign_trace (m : Message.t) (frames : list StackFrame.t) :
  benign_but_text m = true ->
  Message.GetStackTrace m = Some frames ->
  top_texts_ok m = true
  /\ forallb plain_frame frames = true
  /\ EncodeMessageAsJSON m
     = Ret (report_layout m
              ("[" ++ concat "," (map frame_json frames) ++ "]")).
Proof.
  unfold benign_but_text. intros H Htrace. rewrite Htrace in H.
  apply andb_true_iff in H as [Htop H].
  apply andb_true_iff in H as [Hplain Hlen]. apply Z.ltb_lt in Hlen.
  repeat split; trivial.
  rewrite EncodeMessageAsJSON_layout.
  now rewrite (stack_trace_json_trace m frames Htrace Hlen).
Qed.

(** X11: the text after such a double-quote can also continue the object:
    a message text made of a text, a double-quote, a comma, a key between
    double-quotes, a colon and the opening of a string adds a member of
    its own to the report, right after a shortened message. *)
Theorem message_text_adds_member (m : Message.t)
  (frames : list StackFrame.t) (text key value : string) :
  benign_but_text m = true ->
  Message.GetStackTrace m = Some frames ->
  plain text = true -> plain key = true -> plain value = true ->
  Message.Get m = text ++ dq ++ "," ++ quoted key ++ ": " ++ dq ++ value ->
  exists out fuel,
    EncodeMessageAsJSON m = Ret out
    /\ parse fuel out
       = Some (JObject
                 (("message", JString text) :: (key, JString value)
                  :: map field_json (tl (top_fields m))
                  ++ [("frames", JArray (map frame_value frames))])%list).
Proof.
  intros Hbenign Htrace Htext Hkey Hvalue Hget.
  destruct (benign_trace m frames Hbenign Htrace) as (Htop & Hplain & Hout).
  eexists. eexists. split; [exact Hout|].
  rewrite report_layout_fields.
  assert (Hfields :
            fields_text (top_fields m)
            = fields_text ((sp4, "message", SText text)
                           :: (EmptyString, key, SText value)
                           :: tl (top_fields m))).
  { change (top_fields m)
      with ((sp4, "message", SText (Message.Get m)) :: tl (top_fields m)).
    cbn [fields_text field_text scalar_text]. rewrite Hget.
    rewrite !append_assoc. reflexivity. }
  rewrite Hfields.
  apply (object_parses
           ((sp4, "message", SText text) :: (EmptyString, key, SText value)
            :: tl (top_fields m)) frames);
    [ | discriminate | exact Hplain ].
  constructor; [field_ok_tac|].
  constructor; [field_ok_tac|].
  now apply top_fields_tail_ok.
Qed.

Lemma message_text_adds_member_witness :
  exists out fuel members,
    EncodeMessageAsJSON
      (sample_message
         ("boo" ++ dq ++ "," ++ quoted "errorLevel" ++ ": " ++ dq ++ "none")
         None None None (Some [frame_main])) = Ret out
    /\ parse fuel out = Some (JObject members)
    /\ lookup "message" members = Some (JString "boo")
    /\ lookup "errorLevel" members = Some (JString "none").
Proof.
  destruct (message_text_adds_member
              (sample_message
                 ("boo" ++ dq ++ "," ++ quoted "errorLevel" ++ ": "
                  ++ dq ++ "none")
                 None None None (Some [frame_main]))
              [frame_main] "boo" "errorLevel" "none")
    as (out & fuel & Hout & Hparse); try reflexivity.
  exists out, fuel. eexists. split; [exact Hout|].
  split; [exact Hparse|]. split; reflexivity.
Defined.

(** ** Reports of messages without stack trace *)

Lemma json_members_fields_short (fs : list field) (g : nat) (rest : string) :
  Forall field_ok fs ->
  g <= List.length fs ->
  json_members g (fields_text fs ++ rest) = None.
Proof.
  intros Hfs. revert g.
  induction Hfs as [|fld fs Hfld Hfs IH]; intros g Hg;
    cbn [List.length] in Hg.
  - now replace g with 0 by lia.
  - destruct g as [|g]; [reflexivity|].
    cbn [fields_text]. rewrite append_assoc.
    destruct g as [|g].
    + destruct fld as [[pad key] v]. destruct Hfld as (Hpad & Hkey & _).
      cbn [field_text]. rewrite !append_assoc. cbn [append].
      now rewrite json_members_step.
    + rewrite json_members_field by exact Hfld.
      rewrite IH by lia. reflexivity.
Qed.

(** The frames text written without stack trace for a script name that
    JSON::Stringify gave between double-quotes is never read as a value. *)
Lemma fallback_frames_not_value (g : nat) (name rest : string) :
  breaks_member name = true ->
  json_value g (String " " (fallback_frames (quoted name) ++ rest)) = None.
Proof.
  intros Hname.
  destruct g as [|g]; [reflexivity|].
  unfold fallback_frames. rewrite !append_assoc. cbn [append].
  rewrite <- json_value_skip. cbn [skip_ws]. change (is_ws " ") with true.
  cbn iota. change (is_ws "[") with false. cbn iota.
  rewrite json_value_bracket. cbn [skip_ws].
  change (is_ws "{") with false. cbn iota.
  change (code_in 93 93 "{") with false. cbn iota.
  destruct g as [|g]; [reflexivity|]. cbn [json_elements].
  unfold quoted at 2. unfold dq. rewrite !append_assoc. cbn [append].
  change (String "{" (quoted "scriptName" ++ ?x))
    with (String "{" (EmptyString ++ quoted "scriptName" ++ x)).
  change (String "034" (String "034" ?x))
    with (String "034" (EmptyString ++ String "034" x)).
  rewrite first_member_breaks; try reflexivity; try assumption;
    field_ok_tac.
Qed.

(** X12: no report of a message without stack trace is a JSON text when
    its script resource name is a string (which JSON::Stringify returns
    between double-quotes) that does not start, after white space, with a
    comma or a closing brace: the frame holds that stringified name
    between two more double-quotes. *)
Theorem report_without_trace_not_json (m : Message.t) (name out : string) :
  Message.GetStackTrace m = None ->
  Message.StringifyScriptResourceName m = Some (quoted name) ->
  breaks_member name = true ->
  plain (Message.Get m) = true ->
  top_texts_ok m = true ->
  EncodeMessageAsJSON m = Ret out ->
  ~ valid_json out.
Proof.
  intros Htrace Hname Hbreaks Htext Htop Hout (fuel & j & Hparse).
  apply EncodeMessageAsJSON_inv in Hout as (frames & Hframes & ->).
  destruct (fallback_frame_has_no_position m frames Htrace Hframes)
    as (_ & _ & name' & Hname' & ->).
  rewrite Hname in Hname'. injection Hname' as <-.
  pose proof (top_fields_ok m (plain_string_body _ Htext) Htop) as Hfields.
  rewrite report_layout_fields in Hparse. unfold parse in Hparse.
  destruct fuel as [|fuel]; [discriminate|].
  change ("{" ++ ?x) with (String "{" x) in Hparse.
  rewrite json_value_brace in Hparse.
  destruct (fields_text_head (top_fields m)
              (quoted "frames" ++ String ":"
                 (String " " (fallback_frames (quoted name) ++ "}")))
              Hfields) as (r & Hr); [discriminate|].
  rewrite Hr in Hparse.
  change (code_in 125 125 "034") with false in Hparse. cbn iota in Hparse.
  destruct (Nat.le_gt_cases fuel (List.length (top_fields m))) as [Hle|Hgt].
  - rewrite (json_members_fields_short _ _ _ Hfields Hle) in Hparse.
    discriminate.
  - replace fuel
      with (List.length (top_fields m)
            + S (fuel - S (List.length (top_fields m)))) in Hparse by lia.
    rewrite (json_members_fields _ _ _ Hfields) in Hparse.
    change (quoted "frames" ++ ?x)
      with (EmptyString ++ quoted "frames" ++ x) in Hparse.
    rewrite json_members_step in Hparse by field_ok_tac.
    rewrite (fallback_frames_not_value _ name "}" Hbreaks) in Hparse.
    discriminate.
Qed.

Lemma report_without_trace_not_json_witness :
  exists out,
    EncodeMessageAsJSON message_no_trace = Ret out /\ ~ valid_json out.
Proof.
  eexists. split; [vm_compute; reflexivity|].
  apply (report_without_trace_not_json message_no_trace "a.js");
    reflexivity.
Defined.

(** ** Further properties of the dispatcher *)

Section DispatcherMore.

Context {engine : Engine}.

(** X13: no call returns with IsExecutionTerminating still true, so a
    second call with the same value takes the plain branch and stores the
    report of the value itself; it leaves the state exactly as the first
    call left it when the first call handled the value itself, that is
    when the isolate was not terminating or the value is neither null nor
    undefined. *)
Theorem HandleException_idempotent (depth : nat)
  (isolate isolate' : Isolate) (exception : Value) :
  HandleException depth isolate exception = Ret isolate' ->
  IsExecutionTerminating isolate' = false
  /\ (IsExecutionTerminating isolate = false
      \/ IsNullOrUndefined exception = false ->
      HandleException depth isolate' exception = Ret isolate')
  /\ (forall isolate'',
        HandleException depth isolate' exception = Ret isolate'' ->
        exists json_str,
          EncodeExceptionAsJSON exception = Ret json_str
          /\ last_exception isolate'' = Some json_str).
Proof.
  intros Hret.
  destruct (HandleException_returns _ _ _ _ Hret)
    as (json_str & Hjson & Hd & ->).
  split; [reflexivity|]. split.
  - intros Hself.
    assert (Hvalue : handled isolate exception = exception).
    { unfold handled. destruct (IsExecutionTerminating isolate); trivial.
      destruct Hself as [H|H]; [discriminate | now rewrite H]. }
    rewrite Hvalue in Hjson.
    destruct (HandleException_depth _ _ _ _ Hret) as [(d & ->)|(-> & Hterm)].
    + rewrite HandleException_steps. unfold handled. cbn.
      rewrite Hjson. reflexivity.
    + rewrite HandleException_running by reflexivity.
      rewrite Hjson. cbn. unfold set_last_exception, published. cbn.
      unfold IsExecutionTerminating in Hterm. now rewrite Hterm.
  - intros isolate'' Hagain.
    destruct (HandleException_returns _ _ _ _ Hagain)
      as (again & Hagain_json & _ & ->).
    now exists again.
Qed.

(** X14: in an isolate without DenoIsolate neither entry point ever
    returns, and the report is encoded before the pointer is checked: when
    the encoding returns, the call ends in the failed check. *)
Theorem null_DenoIsolate_is_fatal (depth : nat) (isolate : Isolate) :
  deno_isolate isolate = None ->
  (forall exception isolate',
     HandleException depth isolate exception <> Ret isolate')
  /\ (forall message isolate',
        HandleExceptionMessage depth isolate message <> Ret isolate')
  /\ (forall exception json_str,
        EncodeExceptionAsJSON (handled isolate exception) = Ret json_str ->
        HandleException (S (S depth)) isolate exception
        = Fatal "Check failed: d != nullptr.")
  /\ (forall exception why,
        EncodeExceptionAsJSON (handled isolate exception) = Fatal why ->
        HandleException (S (S depth)) isolate exception = Fatal why).
Proof.
  intros Hnull.
  split; [|split; [|split]].
  - intros exception isolate' Hret.
    destruct (HandleException_returns _ _ _ _ Hret) as (_ & _ & Hd & _).
    congruence.
  - intros message isolate' Hret.
    destruct (HandleExceptionMessage_returns _ _ _ _ Hret)
      as (_ & _ & Hd & _).
    congruence.
  - intros exception json_str Hjson.
    now rewrite HandleException_steps, Hjson, Hnull.
  - intros exception why Hjson.
    now rewrite HandleException_steps, Hjson.
Qed.

(** X15: what the slot held before has no influence on a call: two
    isolates that differ in the stored report only give the same outcome,
    for both entry points. *)
Theorem previous_report_is_ignored (depth : nat) (signal requested : bool)
  (old1 old2 : DenoIsolate) :
  (forall exception,
     HandleException depth
       {| execution_terminating := signal;
          termination_requested := requested;
          deno_isolate := Some old1 |}
       exception
     = HandleException depth
         {| execution_terminating := signal;
            termination_requested := requested;
            deno_isolate := Some old2 |}
         exception)
  /\ (forall message,
        HandleExceptionMessage depth
          {| execution_terminating := signal;
             termination_requested := requested;
             deno_isolate := Some old1 |}
          message
        = HandleExceptionMessage depth
            {| execution_terminating := signal;
               termination_requested := requested;
               deno_isolate := Some old2 |}
            message).
Proof.
  assert (Hex : forall d exception,
             HandleException d
               {| execution_terminating := signal;
                  termination_requested := requested;
                  deno_isolate := Some old1 |}
               exception
             = HandleException d
                 {| execution_terminating := signal;
                    termination_requested := requested;
                    deno_isolate := Some old2 |}
                 exception).
  { intros [|[|d]] exception; [reflexivity| |].
    - destruct signal.
      + now rewrite !HandleException_terminating by reflexivity.
      + now rewrite !HandleException_running by reflexivity.
    - now rewrite !HandleException_steps. }
  split; [apply Hex|].
  intros message. unfold HandleExceptionMessage. cbn.
  destruct signal; [apply Hex | reflexivity].
Qed.

(** X16: the two entry points agree on a thrown value and the message the
    engine makes of it, outside termination and, under termination, for a
    null or undefined value. *)
Theorem entry_points_agree (depth : nat) (isolate : Isolate)
  (exception : Value) :
  IsExecutionTerminating isolate = false
  \/ IsNullOrUndefined exception = true ->
  HandleExceptionMessage (S (S depth)) isolate (CreateMessage exception)
  = HandleException (S (S depth)) isolate exception.
Proof.
  intros H. unfold HandleExceptionMessage.
  destruct (IsExecutionTerminating isolate) eqn:Hterm.
  - destruct H as [H|H]; [discriminate|].
    rewrite !HandleException_steps. unfold handled.
    now rewrite Hterm, H.
  - now rewrite HandleException_running by exact Hterm.
Qed.

End DispatcherMore.

Lemma HandleException_idempotent_witness :
  exists isolate',
    HandleException (engine := uncaught_engine) 2 terminating_isolate
      (Str "boo") = Ret isolate'
    /\ IsExecutionTerminating isolate' = false
    /\ HandleException (engine := uncaught_engine) 2 isolate' (Str "boo")
       = Ret isolate'.
Proof.
  destruct (HandleException (engine := uncaught_engine) 2
              terminating_isolate (Str "boo")) as [isolate'| |] eqn:Hrun;
    [|vm_compute in Hrun; discriminate|vm_compute in Hrun; discriminate].
  destruct (HandleException_idempotent (engine := uncaught_engine) 2
              terminating_isolate isolate' (Str "boo") Hrun)
    as (Hsignal & Hsame & _).
  exists isolate'. split; [reflexivity|]. split; [exact Hsignal|].
  apply Hsame. right. reflexivity.
Defined.

Lemma null_DenoIsolate_is_fatal_witness :
  HandleException (engine := plain_engine) 2
    {| execution_terminating := true;
       termination_requested := false;
       deno_isolate := None |} Undefined
  = Fatal "Check failed: d != nullptr.".
Proof.
  destruct (null_DenoIsolate_is_fatal (engine := plain_engine) 0
              {| execution_terminating := true;
                 termination_requested := false;
                 deno_isolate := None |}
              eq_refl) as (_ & _ & Hcheck & _).
  eapply Hcheck. vm_compute. reflexivity.
Defined.

Lemma entry_points_agree_witness :
  HandleExceptionMessage (engine := plain_engine) 2 running_isolate
    (@CreateMessage plain_engine (Str "boo"))
  = HandleException (engine := plain_engine) 2 running_isolate (Str "boo").
Proof.
  apply (entry_points_agree (engine := plain_engine)). left. reflexivity.
Defined.
